(** * dazel: configuration resolution and command construction

    A shallow embedding of [dazel.py] (class [DockerInstance] and [main])
    together with the properties of its launch profile, its workspace
    lookup and the command lines it builds.

    Conventions of the embedding.
    - A Python [str] is a [string]; one [ascii] stands for one code point
      in the range U+0000..U+00FF.
    - Configuration values are the Python values [None], [bool], [int],
      [str] and [list]; tuples, dicts and user objects are not modelled.
    - The interpreter is one where [collections.Iterable] resolves
      (CPython 3.3 to 3.9).
    - Everything the script reads from its surroundings (working
      directory, file system, environment, terminal, outcome of child
      processes) is a field of the record [World]; the commands handed to
      the shell are collected, in order, in a [Trace].
    - Calls to [logger] leave no mark in the model. *)

From Stdlib Require Import Ascii String ZArith List Lia.
From stdpp Require Import gmap strings list fin_maps pretty.

Open Scope Z_scope.

(** ** Python values, exceptions and results *)

#[warnings="-register-all"]
Inductive pyval : Type :=
| PNone
| PBool (b : bool)
| PInt (n : Z)
| PStr (s : string)
| PList (items : list pyval).

Inductive PyErr : Type :=
| RuntimeError (msg : string)
| TypeError.

(** The outcome of running a piece of the script: a value, an exception
    that nobody catches, or a loop that has not stopped. *)
Inductive Result (A : Type) : Type :=
| Ok (a : A)
| Raise (e : PyErr)
| Diverge.

Arguments Ok {A} a.
Arguments Raise {A} e.
Arguments Diverge {A}.

#[global] Instance Result_ret : MRet Result := λ A a, Ok a.
#[global] Instance Result_bind : MBind Result := λ A B f m,
  match m with
  | Ok a => f a
  | Raise e => Raise e
  | Diverge => Diverge
  end.

(** [bool(v)] *)
Definition truthy (v : pyval) : bool :=
  match v with
  | PNone => false
  | PBool b => b
  | PInt n => negb (n =? 0)
  | PStr s => negb (s =? "")%string
  | PList items => match items with [] => false | _ => true end
  end.

(** [isinstance(v, str)] *)
Definition isinstance_str (v : pyval) : bool :=
  match v with PStr _ => true | _ => false end.

(** [isinstance(v, collections.Iterable)] *)
Definition isinstance_Iterable (v : pyval) : bool :=
  match v with PStr _ | PList _ => true | _ => false end.

(** ** Python string primitives *)

Definition dquote : string := String "034"%char "".

(** [c.isspace()] on U+0000..U+00FF *)
Definition isspace (c : ascii) : bool :=
  let n := N_of_ascii c in
  ((9 <=? n) && (n <=? 13) || (28 <=? n) && (n <=? 32)
   || (n =? 133) || (n =? 160))%N.

(** [s.lstrip()] *)
Fixpoint lstrip (s : string) : string :=
  match s with
  | EmptyString => EmptyString
  | String c rest => if isspace c then lstrip rest else s
  end.

(** [s.rstrip()] *)
Fixpoint rstrip (s : string) : string :=
  match s with
  | EmptyString => EmptyString
  | String c rest =>
      match rstrip rest with
      | EmptyString => if isspace c then EmptyString else String c EmptyString
      | kept => String c kept
      end
  end.

(** [s.strip()] *)
Definition strip (s : string) : string := rstrip (lstrip s).

(** [s.split(sep)] for a separator of one character *)
Fixpoint split (sep : ascii) (s : string) : list string :=
  match s with
  | EmptyString => [EmptyString]
  | String c rest =>
      if decide (c = sep) then EmptyString :: split sep rest
      else match split sep rest with
           | field :: fields => String c field :: fields
           | [] => [String c EmptyString]
           end
  end.

(** [sep.join(items)] on a list of [str] is [String.concat sep items]. *)
Definition join (sep : string) (items : list string) : string :=
  String.concat sep items.

Fixpoint chars (s : string) : list string :=
  match s with
  | EmptyString => []
  | String c rest => String c EmptyString :: chars rest
  end.

Fixpoint all_str (items : list pyval) : option (list string) :=
  match items with
  | [] => Some []
  | PStr s :: rest => cons s <$> all_str rest
  | _ :: _ => None
  end.

(** [sep.join(iterable)] on any value: every item has to be a [str]. *)
Definition str_join (sep : string) (iterable : pyval) : Result string :=
  match iterable with
  | PList items =>
      match all_str items with
      | Some l => Ok (join sep l)
      | None => Raise TypeError
      end
  | PStr s => Ok (join sep (chars s))
  | _ => Raise TypeError
  end.

(** [s.startswith(prefix)] *)
Definition startswith (s prefix : string) : bool := String.prefix prefix s.

Fixpoint last_char (s : string) : option ascii :=
  match s with
  | EmptyString => None
  | String c rest =>
      match last_char rest with
      | None => Some c
      | Some d => Some d
      end
  end.

(** [s.endswith(c)] for one character *)
Definition endswith_char (s : string) (c : ascii) : bool :=
  match last_char s with
  | Some d => bool_decide (d = c)
  | None => false
  end.

Fixpoint contains (c : ascii) (s : string) : bool :=
  match s with
  | EmptyString => false
  | String d rest => bool_decide (d = c) || contains c rest
  end.

(** ** [repr] and [str], as the [%s] conversion applies them *)

Definition hexdigit (n : N) : ascii :=
  ascii_of_N (if (n <? 10)%N then 48 + n else 87 + n)%N.

Definition repr_char (quote c : ascii) : string :=
  let n := N_of_ascii c in
  if bool_decide (c = quote) || bool_decide (c = "\"%char)
  then String "\" (String c EmptyString)
  else if (n =? 9)%N then "\t"
  else if (n =? 10)%N then "\n"
  else if (n =? 13)%N then "\r"
  else if ((n <? 32) || (n =? 127) || (128 <=? n) && (n <=? 160)
           || (n =? 173))%N
  then "\x" +:+ String (hexdigit (n / 16)) (String (hexdigit (n mod 16)) EmptyString)
  else String c EmptyString.

Fixpoint repr_chars (quote : ascii) (s : string) : string :=
  match s with
  | EmptyString => EmptyString
  | String c rest => repr_char quote c +:+ repr_chars quote rest
  end.

Definition repr_str (s : string) : string :=
  let quote := if contains "'" s && negb (contains "034" s)
               then "034"%char else "'"%char in
  String quote (repr_chars quote s +:+ String quote EmptyString).

Fixpoint repr (v : pyval) : string :=
  match v with
  | PNone => "None"
  | PBool true => "True"
  | PBool false => "False"
  | PInt n => pretty n
  | PStr s => repr_str s
  | PList items => "[" +:+ join ", " (map repr items) +:+ "]"
  end.

(** [str(v)], which is what ["%s" % v] inserts *)
Definition str (v : pyval) : string :=
  match v with
  | PStr s => s
  | _ => repr v
  end.

(** ** [os.path] on POSIX *)

(** [s.rstrip(c)] for one character *)
Fixpoint rstrip_char (c : ascii) (s : string) : string :=
  match s with
  | EmptyString => EmptyString
  | String d rest =>
      match rstrip_char c rest with
      | EmptyString => if decide (d = c) then EmptyString else String d EmptyString
      | kept => String d kept
      end
  end.

(** [s[:s.rfind(c) + 1]]: the part of [s] up to and with its last [c],
    empty when [s] has none *)
Fixpoint through_last (c : ascii) (s : string) : string :=
  match s with
  | EmptyString => EmptyString
  | String d rest =>
      match through_last c rest with
      | EmptyString => if decide (d = c) then String d EmptyString else EmptyString
      | more => String d more
      end
  end.

(** [s == c * len(s)] *)
Fixpoint all_char (c : ascii) (s : string) : bool :=
  match s with
  | EmptyString => true
  | String d rest => bool_decide (d = c) && all_char c rest
  end.

(** [os.path.dirname(p)] *)
Definition dirname (p : string) : string :=
  let head := through_last "/" p in
  if negb (head =? "")%string && negb (all_char "/" head)
  then rstrip_char "/" head
  else head.

(** [os.path.join(a, b)] on two [str] *)
Definition path_join (a b : string) : string :=
  if startswith b "/" then b
  else if (a =? "")%string || endswith_char a "/" then a +:+ b
  else a +:+ "/" +:+ b.

(** [os.path.join(a, b)] on any two values *)
Definition os_path_join (a b : pyval) : Result string :=
  match a, b with
  | PStr a, PStr b => Ok (path_join a b)
  | _, _ => Raise TypeError
  end.

(** ** The surroundings of the script *)

(** How a child process ended. *)
Inductive ProcStatus : Type :=
| Exited (code : Z)
| Signaled (sig : Z).

(** The command lines handed to the shell so far, oldest first. *)
Definition Trace : Type := list string.

Record World : Type := {
  (** [sys.argv] *)
  argv : list string;
  (** [os.path.realpath(os.getcwd())] *)
  cwd : string;
  (** [os.path.exists] *)
  path_exists : string → bool;
  (** the top-level assignments, in order, that running the script stored
      at a path performs *)
  dazelrc : string → list (string * pyval);
  (** [os.environ] *)
  environ : gmap string string;
  (** [shutil.get_terminal_size()]: columns and lines *)
  terminal_size : Z * Z;
  (** [sys.stdout.isatty()] *)
  stdout_isatty : bool;
  (** how the shell ends on a command line, given the ones run before *)
  shell : Trace → string → ProcStatus
}.

(** Code that may spawn processes threads the trace. *)
Definition Run (A : Type) : Type := Trace → Result A * Trace.

#[global] Instance Run_ret : MRet Run := λ A a tr, (Ok a, tr).
#[global] Instance Run_bind : MBind Run := λ A B f m tr,
  match m tr with
  | (Ok a, tr') => f a tr'
  | (Raise e, tr') => (Raise e, tr')
  | (Diverge, tr') => (Diverge, tr')
  end.

Definition lift {A : Type} (r : Result A) : Run A := λ tr, (r, tr).

(** The [returncode] of [subprocess.call]. *)
Definition returncode (st : ProcStatus) : Z :=
  match st with
  | Exited code => code
  | Signaled sig => - sig
  end.

(** The 16-bit status that [wait] reports and [os.system] returns. *)
Definition wait_status (st : ProcStatus) : Z :=
  match st with
  | Exited code => Z.shiftl (Z.land code 255) 8
  | Signaled sig => Z.land sig 127
  end.

(** [os.WEXITSTATUS] *)
Definition WEXITSTATUS (status : Z) : Z := Z.land (Z.shiftr status 8) 255.

(** [subprocess.call(command, stdout=sys.stderr, shell=True)] *)
Definition subprocess_call (w : World) (command : string) : Run Z :=
  λ tr, (Ok (returncode (shell w tr command)), tr ++ [command]).

(** [os.system(command)] *)
Definition os_system (w : World) (command : string) : Run Z :=
  λ tr, (Ok (wait_status (shell w tr command)), tr ++ [command]).

(** [exec(script, globals)] for a script given by its assignments *)
Definition exec (bindings : list (string * pyval))
    (globals : gmap string pyval) : gmap string pyval :=
  foldl (λ g kv, <[kv.1 := kv.2]> g) globals bindings.

(** [d.update(other)] *)
Definition dict_update {V : Type} (d other : gmap string V) : gmap string V :=
  other ∪ d.

(** [d.get(key, default)] *)
Definition dict_get {V : Type} (d : gmap string V) (key : string) (default : V) : V :=
  match d !! key with
  | Some v => v
  | None => default
  end.

(** ** Constants of [dazel.py] *)

Definition CODE_MOUNT_POINT : string := "/code".
Definition CONTAINER_OUTPUT_BASE : string := "/root/.cache/bazel/_bazel_dazel".
Definition BUILD_CONTAINER_NAME : string := "dazel_build".
Definition DAZEL_RC_FILENAME : string := ".dazelrc".
Definition BAZEL_WORKSPACE_FILE : string := "WORKSPACE".
Definition DOCKER_COMPOSE_COMMAND : string := "docker-compose".
Definition DOCKER_COMMAND : string := "docker".
Definition DOCKER_COMPOSE_PROJECT_NAME : string := "dazel".
Definition CONTAINER_OUTPUT_USER_ROOT : string := "/var/bazel/workspace/_bazel_dazel".
Definition CONTAINER_BAZEL_BIN : string := "/usr/bin/bazel".
Definition DEFAULT_PORTS : pyval := PList [].
Definition DEFAULT_ENV_VARS : pyval := PList [].
Definition DEFAULT_DOCKER_COMPOSE_FILE : pyval := PStr "".
Definition DEFAULT_USER : pyval := PStr "".
Definition DEFAULT_BAZEL_RC_FILE : pyval := PStr "".
Definition DEFAULT_DOCKER_RUN_PRIVILEGED : pyval := PBool false.

(** ** [class DockerInstance] *)

Record DockerInstance : Type := {
  workspace_root : pyval;
  docker_compose_file : pyval;
  bazel_rc_file : pyval;
  docker_run_privileged : pyval;
  user : pyval;
  ports : string;
  env_vars : string
}.

(** [self.ports = value] *)
Definition set_ports (self : DockerInstance) (value : string) : DockerInstance :=
  {| workspace_root := workspace_root self;
     docker_compose_file := docker_compose_file self;
     bazel_rc_file := bazel_rc_file self;
     docker_run_privileged := docker_run_privileged self;
     user := user self;
     ports := value;
     env_vars := env_vars self |}.

(** [self.env_vars = value] *)
Definition set_env_vars (self : DockerInstance) (value : string) : DockerInstance :=
  {| workspace_root := workspace_root self;
     docker_compose_file := docker_compose_file self;
     bazel_rc_file := bazel_rc_file self;
     docker_run_privileged := docker_run_privileged self;
     user := user self;
     ports := ports self;
     env_vars := value |}.

Definition _add_ports (self : DockerInstance) (ports : pyval) : Result DockerInstance :=
  let self := set_ports self "" in
  if negb (truthy ports) then Ok self
  else
    ports ← match ports with
             | PStr s => Ok (PList (PStr <$> (strip <$> split "," s)))
             | _ =>
                 if truthy ports && negb (isinstance_Iterable ports)
                 then Raise (RuntimeError
                   "DAZEL_PORTS must be comma-separated string or python iterable of strings")
                 else Ok ports
             end;
    joined ← str_join (dquote +:+ " -p " +:+ dquote) ports;
    Ok (set_ports self ("-p " +:+ dquote +:+ joined +:+ dquote)).

Definition _add_env_vars (self : DockerInstance) (env_vars : pyval) : Result DockerInstance :=
  let self := set_env_vars self "" in
  if negb (truthy env_vars) then Ok self
  else
    env_vars ← match env_vars with
                | PStr s => Ok (PList (PStr <$> (strip <$> split "," s)))
                | _ =>
                    if truthy env_vars && negb (isinstance_Iterable env_vars)
                    then Raise (RuntimeError
                      "DAZEL_ENV_VARS must be comma-separated string or python iterable of strings")
                    else Ok env_vars
                end;
    joined ← str_join (dquote +:+ " -e " +:+ dquote) env_vars;
    Ok (set_env_vars self ("-e " +:+ dquote +:+ joined +:+ dquote)).

Definition __init__ (workspace_root ports env_vars docker_compose_file
    bazel_rc_file docker_run_privileged user : pyval) : Result DockerInstance :=
  let self := {| workspace_root := workspace_root;
                 docker_compose_file := docker_compose_file;
                 bazel_rc_file := bazel_rc_file;
                 docker_run_privileged := docker_run_privileged;
                 user := user;
                 ports := "";
                 env_vars := "" |} in
  self ← _add_ports self ports;
  _add_env_vars self env_vars.

(** The [while] loop of [_find_workspace_directory], at most [fuel] tests
    of its condition. *)
Fixpoint find_loop (fuel : nat) (w : World) (directory : string) : Result string :=
  match fuel with
  | O => Diverge
  | S fuel' =>
      if negb (directory =? "")%string && negb (directory =? "/")%string
         && negb (path_exists w (path_join directory BAZEL_WORKSPACE_FILE))
      then find_loop fuel' w (dirname directory)
      else Ok directory
  end.

Definition _find_workspace_directory (w : World) : Result string :=
  find_loop (S (String.length (cwd w))) w (cwd w).

Definition _config_from_file (w : World) : Result (gmap string pyval) :=
  directory ← _find_workspace_directory w;
  let dazelrc_path := path_join directory DAZEL_RC_FILENAME in
  let config : gmap string pyval := {[ "DAZEL_WORKSPACE_ROOT" := PStr directory ]} in
  if path_exists w dazelrc_path
  then Ok (exec (dazelrc w dazelrc_path) config)
  else Ok config.

Definition _config_from_environment (w : World) : gmap string pyval :=
  PStr <$> filter (λ item, startswith item.1 "DAZEL_" = true) (environ w).

(** The local [config] of [from_config] once [update] has run. *)
Definition from_config_merged (w : World) : Result (gmap string pyval) :=
  config ← _config_from_file w;
  Ok (dict_update config (_config_from_environment w)).

Definition from_config (w : World) : Result DockerInstance :=
  config ← from_config_merged w;
  __init__ (dict_get config "DAZEL_WORKSPACE_ROOT" PNone)
           (dict_get config "DAZEL_PORTS" DEFAULT_PORTS)
           (dict_get config "DAZEL_ENV_VARS" DEFAULT_ENV_VARS)
           (dict_get config "DAZEL_DOCKER_COMPOSE_FILE" DEFAULT_DOCKER_COMPOSE_FILE)
           (dict_get config "DAZEL_BAZEL_RC_FILE" DEFAULT_BAZEL_RC_FILE)
           (dict_get config "DAZEL_DOCKER_RUN_PRIVILEGED" DEFAULT_DOCKER_RUN_PRIVILEGED)
           (dict_get config "DAZEL_USER" DEFAULT_USER).

(** The part of the command line of [send_command] before the forwarded
    arguments: the first thirteen conversions of the format string. *)
Definition send_command_flags (w : World) (self : DockerInstance) : string :=
  DOCKER_COMMAND +:+ " exec -i -e COLUMNS=" +:+ pretty (terminal_size w).1
  +:+ " -e LINES=" +:+ pretty (terminal_size w).2
  +:+ " -e TERM=" +:+ dict_get (environ w) "TERM" ""
  +:+ " -w /code " +:+ env_vars self
  +:+ " " +:+ (if stdout_isatty w then "-t" else "")
  +:+ " " +:+ (if truthy (docker_run_privileged self) then "--privileged" else "")
  +:+ " " +:+ (if truthy (user self) then "--user=" +:+ str (user self) else "")
  +:+ " " +:+ BUILD_CONTAINER_NAME
  +:+ " " +:+ CONTAINER_BAZEL_BIN
  +:+ " " +:+ (if truthy (bazel_rc_file self)
               then "--bazelrc=" +:+ CODE_MOUNT_POINT +:+ "/" +:+ str (bazel_rc_file self)
               else "")
  +:+ " " +:+ ("--output_user_root=" +:+ CONTAINER_OUTPUT_USER_ROOT)
  +:+ " " +:+ ("--output_base=" +:+ CONTAINER_OUTPUT_BASE).

(** The local [command] of [send_command]. *)
Definition send_command_line (w : World) (self : DockerInstance)
    (args : list string) : string :=
  send_command_flags w self
  +:+ " " +:+ (dquote +:+ join (dquote +:+ " " +:+ dquote) args +:+ dquote).

Definition send_command (w : World) (self : DockerInstance)
    (args : list string) : Run Z :=
  let command := send_command_line w self args in
  status ← os_system w command;
  mret (WEXITSTATUS status).

Definition _run_silent_command (w : World) (self : DockerInstance)
    (command : string) : Run Z :=
  subprocess_call w command.

Definition _command_exists (w : World) (self : DockerInstance)
    (cmd : string) : Run bool :=
  let command := "which " +:+ cmd +:+ " >/dev/null 2>&1" in
  rc ← _run_silent_command w self command;
  mret (rc =? 0).

Definition _docker_compose_exists (w : World) (self : DockerInstance) : Run bool :=
  _command_exists w self DOCKER_COMPOSE_COMMAND.

Definition _start_compose_services (w : World) (self : DockerInstance) : Run Z :=
  if negb (truthy (docker_compose_file self)) then mret 0
  else
    path ← lift (os_path_join (workspace_root self) (docker_compose_file self));
    let command := "COMPOSE_PROJECT_NAME=" +:+ DOCKER_COMPOSE_PROJECT_NAME
                   +:+ " docker-compose -f " +:+ path
                   +:+ " up -d --remove-orphans" in
    _run_silent_command w self command.

Definition start (w : World) (self : DockerInstance) : Run Z :=
  found ← _docker_compose_exists w self;
  if negb found then mret 1
  else _start_compose_services w self.

Definition main (w : World) : Run Z :=
  di ← lift (from_config w);
  rc ← start w di;
  send_command w di (drop 1 (argv w)).

(** [sys.exit(main())]: the exit code of the script, started with no
    process spawned yet; an exception nobody catches ends it with 1. *)
Definition exit_code (w : World) : option Z :=
  match (main w []).1 with
  | Ok rc => Some rc
  | Raise _ => Some 1
  | Diverge => None
  end.

(** ** Reference notions, in the words of the specification *)

(** A command-line fragment of repeated [flag "<entry>"] tokens joined by
    single spaces; no entry gives the empty fragment. *)
Definition spec_fragment (flag : string) (entries : list string) : string :=
  join " " ((λ entry, flag +:+ " " +:+ dquote +:+ entry +:+ dquote) <$> entries).

(** The forwarded arguments, each one wrapped in double quotes. *)
Definition spec_quoted (args : list string) : string :=
  join " " ((λ arg, dquote +:+ arg +:+ dquote) <$> args).

Fixpoint all_space (s : string) : bool :=
  match s with
  | EmptyString => true
  | String c rest => isspace c && all_space rest
  end.

Definition first_char (s : string) : option ascii :=
  match s with
  | EmptyString => None
  | String c _ => Some c
  end.

Definition no_space_at (c : option ascii) : Prop :=
  match c with
  | Some c => isspace c = false
  | None => True
  end.

(** [t] is [s] without its surrounding whitespace. *)
Definition trimmed (s t : string) : Prop :=
  ∃ l r, s = l +:+ t +:+ r ∧ all_space l = true ∧ all_space r = true
         ∧ no_space_at (first_char t) ∧ no_space_at (last_char t).

(** [fields] are the pieces of [s] between its commas, the empty ones
    kept. *)
Definition comma_fields (s : string) (fields : list string) : Prop :=
  fields ≠ [] ∧ join "," fields = s ∧ Forall (λ f, contains "," f = false) fields.

(** A directory name: not empty and without a slash. *)
Definition valid_name (name : string) : bool :=
  negb (name =? "")%string && negb (contains "/" name).

(** The path [/n1/n2/.../nk], empty for no name. *)
Fixpoint path_of (names : list string) : string :=
  match names with
  | [] => ""
  | name :: rest => "/" +:+ name +:+ path_of rest
  end.

(** The canonical absolute path of the directory reached from the root
    through [names]; the root itself is [/]. *)
Definition abs_path (names : list string) : string :=
  match names with
  | [] => "/"
  | _ => path_of names
  end.

(** The names, innermost first, of the nearest directory at or above the
    given one (other than the root) where the marker exists; no name, that
    is the root, when there is none. *)
Fixpoint nearest (w : World) (inner_first : list string) : list string :=
  match inner_first with
  | [] => []
  | _ :: outer =>
      if path_exists w (path_join (abs_path (rev inner_first)) BAZEL_WORKSPACE_FILE)
      then inner_first
      else nearest w outer
  end.

(** The shapes that [_add_ports] and [_add_env_vars] turn into a
    fragment: what counts as false, a string, a list of strings. *)
Definition accepted_shape (v : pyval) : bool :=
  negb (truthy v)
  || match v with
     | PStr _ => true
     | PList items => bool_decide (is_Some (all_str items))
     | _ => false
     end.

(** ** Sample inputs *)

Definition blank_instance : DockerInstance :=
  {| workspace_root := PNone;
     docker_compose_file := PStr "";
     bazel_rc_file := PStr "";
     docker_run_privileged := PBool false;
     user := PStr "";
     ports := "";
     env_vars := "" |}.

(** The command line of [_command_exists] for [docker-compose]. *)
Definition probe : string := "which docker-compose >/dev/null 2>&1".

(** No [docker-compose] on the search path, no marker, no [.dazelrc],
    and a forwarded command that succeeds. *)
Definition world_without_compose : World :=
  {| argv := ["dazel"; "build"];
     cwd := "/work";
     path_exists := λ _, false;
     dazelrc := λ _, [];
     environ := ∅;
     terminal_size := (80, 24);
     stdout_isatty := false;
     shell := λ _ command,
       if bool_decide (command = probe) then Exited 1 else Exited 0 |}.

(** A workspace at [/home/u/proj] with a compose file, where
    [docker-compose] is found, bringing the services up ends with 3, and
    the forwarded command succeeds. *)
Definition world_compose_fails : World :=
  {| argv := ["dazel"; "build"];
     cwd := "/home/u/proj";
     path_exists := λ p,
       bool_decide (p = "/home/u/proj/WORKSPACE")
       || bool_decide (p = "/home/u/proj/.dazelrc");
     dazelrc := λ _, [("DAZEL_DOCKER_COMPOSE_FILE", PStr "docker-compose.yml")];
     environ := ∅;
     terminal_size := (80, 24);
     stdout_isatty := false;
     shell := λ _ command,
       if startswith command "COMPOSE_PROJECT_NAME=" then Exited 3 else Exited 0 |}.

(** A workspace at [/home/u/proj] whose [.dazelrc] sets the ports and the
    user, entered three directories below, with an environment that sets
    the user and the env vars. *)
Definition world_with_overrides : World :=
  {| argv := ["dazel"; "build"; "//foo:bar"];
     cwd := "/home/u/proj/a/b/c";
     path_exists := λ p,
       bool_decide (p = "/home/u/proj/WORKSPACE")
       || bool_decide (p = "/home/u/proj/.dazelrc");
     dazelrc := λ _, [("DAZEL_PORTS", PStr "80,443"); ("DAZEL_USER", PStr "dev")];
     environ := {[ "TERM" := "xterm"; "DAZEL_USER" := "ci";
                   "DAZEL_ENV_VARS" := "A=1, B" ]};
     terminal_size := (80, 24);
     stdout_isatty := true;
     shell := λ _ _, Exited 0 |}.

(** What [_config_from_file] reads in [world_with_overrides]. *)
Definition file_with_overrides : gmap string pyval :=
  {[ "DAZEL_WORKSPACE_ROOT" := PStr "/home/u/proj";
     "DAZEL_PORTS" := PStr "80,443";
     "DAZEL_USER" := PStr "dev" ]}.

(** The same workspace with a [.dazelrc] that binds [PORTS], and an empty
    environment. *)
Definition world_unprefixed_ports : World :=
  {| argv := ["dazel"; "build"];
     cwd := "/home/u/proj/a/b/c";
     path_exists := λ p,
       bool_decide (p = "/home/u/proj/WORKSPACE")
       || bool_decide (p = "/home/u/proj/.dazelrc");
     dazelrc := λ _, [("PORTS", PStr "80,443")];
     environ := ∅;
     terminal_size := (80, 24);
     stdout_isatty := true;
     shell := λ _ _, Exited 0 |}.

(** The same surroundings with another working directory. *)
Definition with_cwd (w : World) (directory : string) : World :=
  {| argv := argv w;
     cwd := directory;
     path_exists := path_exists w;
     dazelrc := dazelrc w;
     environ := environ w;
     terminal_size := terminal_size w;
     stdout_isatty := stdout_isatty w;
     shell := shell w |}.

(** The same surroundings with another environment. *)
Definition with_environ (w : World) (env : gmap string string) : World :=
  {| argv := argv w;
     cwd := cwd w;
     path_exists := path_exists w;
     dazelrc := dazelrc w;
     environ := env;
     terminal_size := terminal_size w;
     stdout_isatty := stdout_isatty w;
     shell := shell w |}.


(** A [.dazelrc] that binds the ports to an integer. *)
Definition world_bad_ports : World :=
  {| argv := ["dazel"; "build"];
     cwd := "/home/u/proj";
     path_exists := λ p,
       bool_decide (p = "/home/u/proj/WORKSPACE")
       || bool_decide (p = "/home/u/proj/.dazelrc");
     dazelrc := λ _, [("DAZEL_PORTS", PInt 8080)];
     environ := ∅;
     terminal_size := (80, 24);
     stdout_isatty := false;
     shell := λ _ _, Exited 0 |}.

(** An instance with a compose file in the workspace [/home/u/proj]. *)
Definition compose_instance : DockerInstance :=
  {| workspace_root := PStr "/home/u/proj";
     docker_compose_file := PStr "docker-compose.yml";
     bazel_rc_file := PStr "";
     docker_run_privileged := PBool false;
     user := PStr "";
     ports := "";
     env_vars := "" |}.

(** An instance whose compose file is a list. *)
Definition list_compose_instance : DockerInstance :=
  {| workspace_root := PStr "/home/u/proj";
     docker_compose_file := PList [PStr "docker-compose.yml"];
     bazel_rc_file := PStr "";
     docker_run_privileged := PBool false;
     user := PStr "";
     ports := "";
     env_vars := "" |}.

(** No marker, no [.dazelrc], [docker-compose] found, and a forwarded
    command that ends with 2. *)
Definition world_build_fails : World :=
  {| argv := ["dazel"; "build"; "//foo:bar"];
     cwd := "/work";
     path_exists := λ _, false;
     dazelrc := λ _, [];
     environ := ∅;
     terminal_size := (80, 24);
     stdout_isatty := false;
     shell := λ _ command,
       if startswith command "docker exec" then Exited 2 else Exited 0 |}.

(** A workspace whose [.dazelrc] binds the compose file to a list, with
    [docker-compose] found. *)
Definition world_list_compose : World :=
  {| argv := ["dazel"; "build"];
     cwd := "/home/u/proj";
     path_exists := λ p,
       bool_decide (p = "/home/u/proj/WORKSPACE")
       || bool_decide (p = "/home/u/proj/.dazelrc");
     dazelrc := λ _, [("DAZEL_DOCKER_COMPOSE_FILE", PList [PStr "docker-compose.yml"])];
     environ := ∅;
     terminal_size := (80, 24);
     stdout_isatty := false;
     shell := λ _ _, Exited 0 |}.

(** * Properties *)

(** ** Strings *)

Lemma append_cons (c : ascii) (s t : string) :
  String c s +:+ t = String c (s +:+ t).
Proof. reflexivity. Qed.

Lemma append_empty_l (s : string) : "" +:+ s = s.
Proof. reflexivity. Qed.

Lemma append_empty_r (s : string) : s +:+ "" = s.
Proof. induction s as [|c s IH]; [done | by rewrite append_cons, IH]. Qed.

Lemma append_assoc (s t u : string) : (s +:+ t) +:+ u = s +:+ t +:+ u.
Proof. induction s as [|c s IH]; [done | by rewrite !append_cons, IH]. Qed.

(** Wrapping the joined items once, with the closing and opening marks
    inside the separator, wraps every item. *)
Lemma wrap_join (pre post sep : string) (items : list string) :
  items ≠ [] →
  pre +:+ join (post +:+ sep +:+ pre) items +:+ post
  = join sep ((λ item, pre +:+ item +:+ post) <$> items).
Proof.
  intros Hne. destruct items as [|x items]; [done | clear Hne].
  revert x. induction items as [|y items IH]; intros x; [done |].
  change (join (post +:+ sep +:+ pre) (x :: y :: items))
    with (x +:+ (post +:+ sep +:+ pre) +:+ join (post +:+ sep +:+ pre) (y :: items)).
  change (join sep ((λ item, pre +:+ item +:+ post) <$> x :: y :: items))
    with ((pre +:+ x +:+ post) +:+ sep
          +:+ join sep ((λ item, pre +:+ item +:+ post) <$> y :: items)).
  rewrite <- (IH y). by rewrite !append_assoc.
Qed.

Lemma all_str_PStr (l : list string) : all_str (PStr <$> l) = Some l.
Proof.
  induction l as [|x l IH]; [done |].
  rewrite fmap_cons. cbn [all_str]. by rewrite IH.
Qed.

Lemma str_join_PStr (sep : string) (l : list string) :
  str_join sep (PList (PStr <$> l)) = Ok (join sep l).
Proof. unfold str_join. by rewrite all_str_PStr. Qed.

Lemma split_nonempty (sep : ascii) (s : string) : split sep s ≠ [].
Proof.
  destruct s as [|c s]; simpl; [done |].
  destruct (decide (c = sep)); [done |]. by destruct (split sep s).
Qed.

Lemma split_join (sep : ascii) (s : string) :
  join (String sep "") (split sep s) = s.
Proof.
  induction s as [|c s IH]; simpl; [done |].
  destruct (decide (c = sep)) as [->|Hc].
  - pose proof (split_nonempty sep s) as Hne.
    destruct (split sep s) as [|f fs] eqn:E; [done |].
    change (join (String sep "") ("" :: f :: fs))
      with (String sep (join (String sep "") (f :: fs))).
    by rewrite IH.
  - pose proof (split_nonempty sep s) as Hne.
    destruct (split sep s) as [|f fs] eqn:E; [done |].
    rewrite <- IH. by destruct fs.
Qed.

Lemma split_fields_clean (sep : ascii) (s : string) :
  Forall (λ f, contains sep f = false) (split sep s).
Proof.
  induction s as [|c s IH]; simpl; [by repeat constructor |].
  destruct (decide (c = sep)) as [->|Hc]; [by constructor |].
  pose proof (split_nonempty sep s) as Hne.
  destruct (split sep s) as [|f fs]; [done |].
  inversion IH as [|? ? Hf Hfs]; subst. constructor; [|done].
  simpl. rewrite Hf. by rewrite bool_decide_eq_false_2.
Qed.

Lemma split_comma_fields (s : string) : comma_fields s (split "," s).
Proof.
  split; [apply split_nonempty |].
  split; [apply (split_join ","%char) | apply split_fields_clean].
Qed.

Lemma last_char_cons (c : ascii) (s : string) :
  s ≠ "" → last_char (String c s) = last_char s.
Proof. destruct s as [|d s]; [done |]. intros _. simpl. by destruct (last_char s). Qed.

Lemma lstrip_spec (s : string) :
  ∃ l, s = l +:+ lstrip s ∧ all_space l = true
       ∧ no_space_at (first_char (lstrip s)).
Proof.
  induction s as [|c s (l & Hs & Hl & Hfirst)].
  - by exists "".
  - simpl. destruct (isspace c) eqn:Hc.
    + exists (String c l). rewrite append_cons, <- Hs. simpl. by rewrite Hc, Hl.
    + exists "". by rewrite append_empty_l.
Qed.

Lemma rstrip_spec (s : string) :
  ∃ r, s = rstrip s +:+ r ∧ all_space r = true
       ∧ no_space_at (last_char (rstrip s)).
Proof.
  induction s as [|c s (r & Hs & Hr & Hlast)].
  - by exists "".
  - simpl. destruct (rstrip s) as [|d kept] eqn:E.
    + rewrite append_empty_l in Hs. subst r. destruct (isspace c) eqn:Hc.
      * exists (String c s). rewrite append_empty_l. simpl. by rewrite Hc, Hr.
      * exists s. by rewrite append_cons, append_empty_l.
    + exists r. rewrite append_cons, <- Hs. by rewrite last_char_cons.
Qed.

Lemma rstrip_first_char (s : string) :
  no_space_at (first_char s) → no_space_at (first_char (rstrip s)).
Proof.
  destruct s as [|c s]; [done |]. simpl. intros Hc.
  destruct (rstrip s); [by rewrite Hc | done].
Qed.

Lemma strip_trimmed (s : string) : trimmed s (strip s).
Proof.
  destruct (lstrip_spec s) as (l & Hs & Hl & Hfirst).
  destruct (rstrip_spec (lstrip s)) as (r & Ht & Hr & Hlast).
  exists l, r. unfold strip. rewrite <- Ht.
  repeat split; try done. by apply rstrip_first_char.
Qed.

Lemma split_strip_trimmed (s : string) :
  Forall2 trimmed (split "," s) (strip <$> split "," s).
Proof.
  induction (split "," s) as [|f fs IH]; [constructor |].
  rewrite fmap_cons. constructor; [apply strip_trimmed | exact IH].
Qed.

(** ** Rendering of the ports and env-vars fragments *)

Lemma render_fragment (flag : string) (entries : list string) :
  entries ≠ [] →
  (flag +:+ " " +:+ dquote)
    +:+ join (dquote +:+ " " +:+ flag +:+ " " +:+ dquote) entries +:+ dquote
  = spec_fragment flag entries.
Proof.
  intros Hne. rewrite (wrap_join (flag +:+ " " +:+ dquote) dquote " ") by done.
  unfold spec_fragment. f_equal. apply list_fmap_ext. intros _ entry _.
  by rewrite !append_assoc.
Qed.

Lemma truthy_PStr (s : string) : s ≠ "" → truthy (PStr s) = true.
Proof. intros Hs. simpl. by apply negb_true_iff, String.eqb_neq. Qed.

Lemma _add_ports_str (self : DockerInstance) (s : string) :
  s ≠ "" →
  _add_ports self (PStr s)
  = Ok (set_ports self (spec_fragment "-p" (strip <$> split "," s))).
Proof.
  intros Hs. unfold _add_ports. rewrite truthy_PStr by done. cbn [negb mbind Result_bind].
  rewrite str_join_PStr. rewrite <- render_fragment.
  - reflexivity.
  - intros E. apply fmap_nil_inv in E. by apply split_nonempty in E.
Qed.

Lemma _add_env_vars_str (self : DockerInstance) (s : string) :
  s ≠ "" →
  _add_env_vars self (PStr s)
  = Ok (set_env_vars self (spec_fragment "-e" (strip <$> split "," s))).
Proof.
  intros Hs. unfold _add_env_vars. rewrite truthy_PStr by done. cbn [negb mbind Result_bind].
  rewrite str_join_PStr. rewrite <- render_fragment.
  - reflexivity.
  - intros E. apply fmap_nil_inv in E. by apply split_nonempty in E.
Qed.

(** C6, as amended: for every non-empty single string given as the ports
    value or as the env-vars value, the entries are the pieces between the
    commas of the input (the empty ones kept), each one without its
    surrounding whitespace, and the fragment stored is the one of these
    entries; "8080:8080, 9090:9090" gives the two entries "8080:8080" and
    "9090:9090". *)
Theorem normalize_single_string (self : DockerInstance) (s : string) :
  s ≠ "" →
  let entries := strip <$> split "," s in
  comma_fields s (split "," s)
  ∧ Forall2 trimmed (split "," s) entries
  ∧ _add_ports self (PStr s) = Ok (set_ports self (spec_fragment "-p" entries))
  ∧ _add_env_vars self (PStr s) = Ok (set_env_vars self (spec_fragment "-e" entries))
  ∧ strip <$> split "," "8080:8080, 9090:9090" = ["8080:8080"; "9090:9090"].
Proof.
  intros Hs entries. split; [apply split_comma_fields |].
  split; [apply split_strip_trimmed |].
  split; [by apply _add_ports_str |].
  split; [by apply _add_env_vars_str | reflexivity].
Qed.

Lemma normalize_single_string_witness :
  "8080:8080, 9090:9090" ≠ ""
  ∧ _add_ports blank_instance (PStr "8080:8080, 9090:9090")
    = Ok (set_ports blank_instance (spec_fragment "-p" ["8080:8080"; "9090:9090"])).
Proof.
  split; [discriminate |].
  destruct (normalize_single_string blank_instance "8080:8080, 9090:9090")
    as (_ & _ & H & _); [discriminate | exact H].
Defined.

(** C6 as stated fails on the empty string: its split on commas keeps one
    empty entry, which would render as one empty quoted token, while the
    code stores the empty fragment. *)
Lemma normalize_empty_string_counterexample :
  strip <$> split "," "" = [""]
  ∧ _add_ports blank_instance (PStr "") = Ok (set_ports blank_instance "")
  ∧ _add_ports blank_instance (PStr "")
    ≠ Ok (set_ports blank_instance (spec_fragment "-p" (strip <$> split "," ""))).
Proof. split; [reflexivity |]. split; [reflexivity | discriminate]. Qed.

(** C7: the empty string, [None] and the empty list each leave the ports
    fragment and the env-vars fragment empty, which is the fragment of the
    empty sequence of entries: no token at all, and not the one empty
    quoted token that a single empty entry gives. *)
Theorem empty_values_render_nothing (self : DockerInstance) :
  _add_ports self (PStr "") = Ok (set_ports self (spec_fragment "-p" []))
  ∧ _add_ports self PNone = Ok (set_ports self (spec_fragment "-p" []))
  ∧ _add_ports self (PList []) = Ok (set_ports self (spec_fragment "-p" []))
  ∧ _add_env_vars self (PStr "") = Ok (set_env_vars self (spec_fragment "-e" []))
  ∧ _add_env_vars self PNone = Ok (set_env_vars self (spec_fragment "-e" []))
  ∧ _add_env_vars self (PList []) = Ok (set_env_vars self (spec_fragment "-e" []))
  ∧ spec_fragment "-p" [] = "" ∧ spec_fragment "-e" [] = ""
  ∧ spec_fragment "-p" [] ≠ spec_fragment "-p" [""]
  ∧ spec_fragment "-e" [] ≠ spec_fragment "-e" [""].
Proof. repeat split; try reflexivity; discriminate. Qed.

(** C8, as amended: every value that is true in a condition and is neither
    a string nor an iterable (a non-zero integer, [True]) makes
    [_add_ports] and [_add_env_vars] raise a [RuntimeError] whose message
    starts with the configuration key and tells the accepted shapes; no
    instance, hence no fragment, comes out. *)
Theorem rejects_truthy_scalar (self : DockerInstance) (v : pyval) :
  truthy v = true → isinstance_str v = false → isinstance_Iterable v = false →
  _add_ports self v
  = Raise (RuntimeError
      "DAZEL_PORTS must be comma-separated string or python iterable of strings")
  ∧ _add_env_vars self v
    = Raise (RuntimeError
        "DAZEL_ENV_VARS must be comma-separated string or python iterable of strings").
Proof.
  intros Ht Hs Hi. unfold _add_ports, _add_env_vars. rewrite Ht, Hi.
  by destruct v.
Qed.

Lemma rejects_truthy_scalar_witness :
  truthy (PInt 8080) = true ∧ isinstance_str (PInt 8080) = false
  ∧ isinstance_Iterable (PInt 8080) = false
  ∧ _add_ports blank_instance (PInt 8080)
    = Raise (RuntimeError
        "DAZEL_PORTS must be comma-separated string or python iterable of strings").
Proof.
  split; [reflexivity |]. split; [reflexivity |]. split; [reflexivity |].
  apply (rejects_truthy_scalar blank_instance (PInt 8080)); reflexivity.
Defined.

(** C8 as stated fails on the integer 0 (and on [False]): it is neither a
    string, nor a collection, nor empty or absent, and both methods accept
    it without a word and store the empty fragment. A list whose items
    are not strings is not turned away with the message of the method
    either: it gets as far as [join], which raises a [TypeError]. *)
Lemma zero_is_accepted_counterexample :
  isinstance_str (PInt 0) = false ∧ isinstance_Iterable (PInt 0) = false
  ∧ _add_ports blank_instance (PInt 0) = Ok (set_ports blank_instance "")
  ∧ _add_env_vars blank_instance (PInt 0) = Ok (set_env_vars blank_instance "")
  ∧ _add_ports blank_instance (PList [PInt 80]) = Raise TypeError.
Proof. repeat split. Qed.

(** ** The command line of [send_command] *)

Lemma send_command_spawns (w : World) (self : DockerInstance)
    (args : list string) (tr : Trace) :
  send_command w self args tr
  = (Ok (WEXITSTATUS (wait_status (shell w tr (send_command_line w self args)))),
     tr ++ [send_command_line w self args]).
Proof. reflexivity. Qed.

(** C9: for a non-empty argument list the command line that [send_command]
    hands to the shell is the flags, one space, and then the arguments in
    their order, each one wrapped in double quotes, with single spaces
    between them; for ["build"; "//foo:bar"] these are the two tokens
    "build" and "//foo:bar" in quotes. *)
Theorem send_command_forwards_args (w : World) (self : DockerInstance)
    (args : list string) (tr : Trace) :
  args ≠ [] →
  send_command_line w self args
  = send_command_flags w self +:+ " " +:+ spec_quoted args
  ∧ (send_command w self args tr).2 = tr ++ [send_command_line w self args]
  ∧ spec_quoted ["build"; "//foo:bar"]
    = dquote +:+ "build" +:+ dquote +:+ " " +:+ dquote +:+ "//foo:bar" +:+ dquote.
Proof.
  intros Hne. split; [| by split].
  unfold send_command_line, spec_quoted. by rewrite wrap_join.
Qed.

Lemma send_command_forwards_args_witness :
  ["build"; "//foo:bar"] ≠ []
  ∧ send_command_line world_without_compose blank_instance ["build"; "//foo:bar"]
    = send_command_flags world_without_compose blank_instance
      +:+ " " +:+ spec_quoted ["build"; "//foo:bar"].
Proof.
  split; [discriminate |].
  apply (send_command_forwards_args world_without_compose blank_instance
           ["build"; "//foo:bar"] []).
  discriminate.
Defined.

(** C10: with no argument the command line still ends, after the flags and
    one space, with an empty pair of double quotes, whereas wrapping each
    of no arguments gives nothing. *)
Theorem send_command_no_args (w : World) (self : DockerInstance) (tr : Trace) :
  send_command_line w self []
  = send_command_flags w self +:+ " " +:+ dquote +:+ dquote
  ∧ (send_command w self [] tr).2 = tr ++ [send_command_line w self []]
  ∧ spec_quoted [] = "".
Proof. by repeat split. Qed.

(** ** Starting the stack and the exit code *)

Lemma WEXITSTATUS_exited (code : Z) :
  0 ≤ code < 256 → WEXITSTATUS (wait_status (Exited code)) = code.
Proof.
  intros Hcode. unfold WEXITSTATUS, wait_status.
  rewrite Z.shiftr_shiftl_l, Z.sub_diag, Z.shiftl_0_r by lia.
  change 255 with (Z.ones 8). rewrite !Z.land_ones by lia.
  rewrite Z.mod_mod by lia. apply Z.mod_small. lia.
Qed.

Lemma _docker_compose_exists_spawns (w : World) (self : DockerInstance) (tr : Trace) :
  _docker_compose_exists w self tr
  = (Ok (returncode (shell w tr probe) =? 0), tr ++ [probe]).
Proof. reflexivity. Qed.

Lemma _start_compose_services_no_file (w : World) (self : DockerInstance) (tr : Trace) :
  truthy (docker_compose_file self) = false →
  _start_compose_services w self tr = (Ok 0, tr).
Proof. intros Hfile. unfold _start_compose_services. by rewrite Hfile. Qed.

(** C3, as amended: for every profile with an empty compose file, the step
    that brings the services up returns 0 and spawns nothing, and [start]
    spawns exactly one process, the search for the [docker-compose]
    executable, and returns 0 when that search ends with 0 and 1
    otherwise. *)
Theorem start_without_compose_file (w : World) (self : DockerInstance) (tr : Trace) :
  truthy (docker_compose_file self) = false →
  _start_compose_services w self tr = (Ok 0, tr)
  ∧ start w self tr
    = (Ok (if returncode (shell w tr probe) =? 0 then 0 else 1), tr ++ [probe]).
Proof.
  intros Hfile. split; [by apply _start_compose_services_no_file |].
  unfold start, mbind, Run_bind. rewrite _docker_compose_exists_spawns.
  destruct (returncode (shell w tr probe) =? 0); cbn [negb]; [| done].
  by apply _start_compose_services_no_file.
Qed.

Lemma start_without_compose_file_witness :
  truthy (docker_compose_file blank_instance) = false
  ∧ start world_without_compose blank_instance [] = (Ok 1, [probe]).
Proof.
  split; [reflexivity |].
  apply (start_without_compose_file world_without_compose blank_instance []).
  reflexivity.
Defined.

(** C3 as stated fails: with an empty compose file, on a machine without
    [docker-compose], [start] has run the search for the executable and
    returns 1. *)
Lemma start_probes_counterexample :
  truthy (docker_compose_file blank_instance) = false
  ∧ start world_without_compose blank_instance [] = (Ok 1, [probe])
  ∧ start world_without_compose blank_instance [] ≠ (Ok 0, []).
Proof. split; [reflexivity |]. split; [reflexivity | discriminate]. Qed.

(** Whatever [start] returns, [main] goes on to [send_command] and returns
    its status. *)
Lemma main_returns_send_command (w : World) (di : DockerInstance) (rc : Z) (tr : Trace) :
  from_config w = Ok di →
  start w di [] = (Ok rc, tr) →
  main w [] = send_command w di (drop 1 (argv w)) tr.
Proof.
  intros Hconfig Hstart. unfold main, lift, mbind, Run_bind.
  by rewrite Hconfig, Hstart.
Qed.

(** X17: the exit code of the script is the exit status of the forwarded
    command, whatever [start] returned. *)
Lemma exit_code_is_forwarded_status (w : World) (di : DockerInstance)
    (rc code : Z) (tr : Trace) :
  from_config w = Ok di →
  start w di [] = (Ok rc, tr) →
  shell w tr (send_command_line w di (drop 1 (argv w))) = Exited code →
  0 ≤ code < 256 →
  exit_code w = Some code.
Proof.
  intros Hconfig Hstart Hshell Hcode. unfold exit_code.
  rewrite (main_returns_send_command w di rc tr Hconfig Hstart).
  rewrite send_command_spawns, Hshell. cbn [fst].
  by rewrite WEXITSTATUS_exited.
Qed.

(** C2 on the code: with no [docker-compose] on the search path, [start]
    returns 1, and where bringing the services up ends with 3, [start]
    returns 3; both times the script goes on, forwards the command and
    exits with the status of that command, here 0. *)
Theorem main_drops_start_status :
  (di ← from_config world_without_compose;
   Ok (start world_without_compose di [])) = Ok (Ok 1, [probe])
  ∧ exit_code world_without_compose = Some 0
  ∧ (di ← from_config world_compose_fails;
     Ok (start world_compose_fails di []).1) = Ok (Ok 3)
  ∧ exit_code world_compose_fails = Some 0.
Proof. repeat split; vm_compute; reflexivity. Qed.

(** ** The merged configuration *)

Lemma _config_from_environment_lookup (w : World) (key : string) :
  _config_from_environment w !! key
  = if startswith key "DAZEL_" then PStr <$> environ w !! key else None.
Proof.
  unfold _config_from_environment. rewrite lookup_fmap, map_lookup_filter.
  destruct (environ w !! key) as [value|]; simpl.
  - destruct (startswith key "DAZEL_"); [by rewrite option_guard_True |].
    by rewrite option_guard_False.
  - by destruct (startswith key "DAZEL_").
Qed.

Lemma dict_update_lookup {V : Type} (d other : gmap string V) (key : string) :
  dict_update d other !! key
  = match other !! key with
    | Some v => Some v
    | None => d !! key
    end.
Proof.
  unfold dict_update. rewrite lookup_union.
  by destruct (other !! key), (d !! key).
Qed.

(** C1: in the configuration that [from_config] has after [update], a key
    of the environment-based source has the value of that source, whether
    or not the file-based source has the key too, and a key that only the
    file-based source has keeps its value from there; [get] then reads
    the environment's value. *)
Theorem env_overrides_file (w : World) (file : gmap string pyval) :
  _config_from_file w = Ok file →
  ∃ merged, from_config_merged w = Ok merged ∧ ∀ key,
    (∀ ev, _config_from_environment w !! key = Some ev →
           merged !! key = Some ev ∧ ∀ d, dict_get merged key d = ev)
    ∧ (_config_from_environment w !! key = None → merged !! key = file !! key).
Proof.
  intros Hfile. exists (dict_update file (_config_from_environment w)).
  split; [unfold from_config_merged; by rewrite Hfile |].
  intros key. split.
  - intros ev Hev.
    assert (dict_update file (_config_from_environment w) !! key = Some ev) as Hm
      by (by rewrite dict_update_lookup, Hev).
    split; [done |]. intros d. unfold dict_get. by rewrite Hm.
  - intros Hnone. by rewrite dict_update_lookup, Hnone.
Qed.

Lemma env_overrides_file_witness :
  _config_from_file world_with_overrides = Ok file_with_overrides
  ∧ ∃ merged, from_config_merged world_with_overrides = Ok merged
      ∧ merged !! "DAZEL_USER" = Some (PStr "ci")
      ∧ merged !! "DAZEL_PORTS" = Some (PStr "80,443")
      ∧ merged !! "DAZEL_ENV_VARS" = Some (PStr "A=1, B").
Proof.
  split; [vm_compute; reflexivity |].
  destruct (env_overrides_file world_with_overrides file_with_overrides)
    as (merged & Hmerged & Hkeys); [vm_compute; reflexivity |].
  exists merged. split; [exact Hmerged |].
  split; [apply (Hkeys "DAZEL_USER"); vm_compute; reflexivity |].
  split; [| apply (Hkeys "DAZEL_ENV_VARS"); vm_compute; reflexivity].
  destruct (Hkeys "DAZEL_PORTS") as [_ Hfile]. rewrite Hfile; vm_compute; reflexivity.
Defined.

Lemma _add_env_vars_accepted (v : pyval) :
  accepted_shape v = true →
  ∃ fragment, ∀ self, _add_env_vars self v = Ok (set_env_vars self fragment).
Proof.
  intros Hv. destruct v as [|b|n|s|items].
  - by exists "".
  - destruct b; [done | by exists ""].
  - destruct (decide (n = 0)) as [->|Hn]; [by exists "" |].
    apply Z.eqb_neq in Hn. unfold accepted_shape in Hv. simpl in Hv.
    rewrite Hn in Hv. done.
  - destruct (decide (s = "")) as [->|Hs]; [by exists "" |].
    eexists. intros self. by apply _add_env_vars_str.
  - destruct items as [|item items]; [by exists "" |].
    unfold accepted_shape in Hv. cbn [truthy negb orb] in Hv.
    apply bool_decide_eq_true in Hv. destruct Hv as [l Hl].
    eexists. intros self. unfold _add_env_vars, str_join.
    cbn [truthy negb isinstance_Iterable andb mbind Result_bind].
    rewrite Hl. reflexivity.
Qed.

(** C4, as amended: when the file-based source binds the key [DAZEL_PORTS]
    to "80,443", the environment has no variable of that name and the
    env-vars value has an accepted shape, [from_config] builds an instance
    whose ports fragment is the token [-p "80"] followed by the token
    [-p "443"]. *)
Theorem ports_from_dazelrc (w : World) (file : gmap string pyval) :
  _config_from_file w = Ok file →
  file !! "DAZEL_PORTS" = Some (PStr "80,443") →
  environ w !! "DAZEL_PORTS" = None →
  accepted_shape (dict_get (dict_update file (_config_from_environment w))
                           "DAZEL_ENV_VARS" DEFAULT_ENV_VARS) = true →
  ∃ di, from_config w = Ok di
        ∧ ports di = "-p " +:+ dquote +:+ "80" +:+ dquote
                     +:+ " -p " +:+ dquote +:+ "443" +:+ dquote.
Proof.
  intros Hfile Hports Henv Hvars.
  destruct (_add_env_vars_accepted _ Hvars) as [fragment Hfragment].
  unfold from_config, from_config_merged. rewrite Hfile.
  cbn [mbind Result_bind].
  set (merged := dict_update file (_config_from_environment w)) in *.
  assert (dict_get merged "DAZEL_PORTS" DEFAULT_PORTS = PStr "80,443") as ->.
  { unfold dict_get, merged.
    rewrite dict_update_lookup, _config_from_environment_lookup, Henv.
    by rewrite Hports. }
  unfold __init__. rewrite _add_ports_str by done.
  cbn [mbind Result_bind]. rewrite Hfragment.
  eexists. split; reflexivity.
Qed.

Lemma ports_from_dazelrc_witness :
  _config_from_file world_with_overrides = Ok file_with_overrides
  ∧ file_with_overrides !! "DAZEL_PORTS" = Some (PStr "80,443")
  ∧ environ world_with_overrides !! "DAZEL_PORTS" = None
  ∧ accepted_shape
      (dict_get (dict_update file_with_overrides
                             (_config_from_environment world_with_overrides))
                "DAZEL_ENV_VARS" DEFAULT_ENV_VARS) = true
  ∧ ∃ di, from_config world_with_overrides = Ok di
          ∧ ports di = "-p " +:+ dquote +:+ "80" +:+ dquote
                       +:+ " -p " +:+ dquote +:+ "443" +:+ dquote.
Proof.
  split; [vm_compute; reflexivity |].
  split; [vm_compute; reflexivity |].
  split; [vm_compute; reflexivity |].
  split; [vm_compute; reflexivity |].
  apply (ports_from_dazelrc world_with_overrides file_with_overrides);
    vm_compute; reflexivity.
Defined.

(** C4 as stated fails: a [.dazelrc] that binds the key [PORTS] leaves the
    ports fragment empty, because [from_config] reads [DAZEL_PORTS]. *)
Lemma unprefixed_ports_counterexample :
  (∃ file, _config_from_file world_unprefixed_ports = Ok file
           ∧ file !! "PORTS" = Some (PStr "80,443"))
  ∧ environ world_unprefixed_ports = ∅
  ∧ ∃ di, from_config world_unprefixed_ports = Ok di ∧ ports di = "".
Proof.
  split; [eexists; split; vm_compute; reflexivity |].
  split; [reflexivity |].
  eexists; split; vm_compute; reflexivity.
Qed.

(** ** Paths and the workspace lookup *)

Lemma string_length_append (s t : string) :
  String.length (s +:+ t) = (String.length s + String.length t)%nat.
Proof. induction s as [|c s IH]; [done |]. rewrite append_cons. simpl. by rewrite IH. Qed.

Lemma path_of_snoc (names : list string) (name : string) :
  path_of (names ++ [name]) = path_of names +:+ "/" +:+ name.
Proof.
  induction names as [|n names IH].
  - simpl. by rewrite append_empty_r.
  - simpl. rewrite IH. by rewrite !append_assoc.
Qed.

Lemma path_of_length (names : list string) :
  (length names ≤ String.length (path_of names))%nat.
Proof.
  induction names as [|n names IH]; [done |].
  simpl. rewrite append_empty_l, string_length_append. lia.
Qed.

Lemma through_last_absent (c : ascii) (s : string) :
  contains c s = false → through_last c s = "".
Proof.
  induction s as [|d s IH]; [done |]. simpl. intros H.
  apply orb_false_iff in H as [Hd Hs]. rewrite (IH Hs).
  apply bool_decide_eq_false in Hd. by rewrite decide_False.
Qed.

Lemma through_last_append (c : ascii) (s t : string) :
  contains c t = false → through_last c (s +:+ String c t) = s +:+ String c "".
Proof.
  intros Ht. induction s as [|d s IH].
  - rewrite !append_empty_l. simpl. rewrite (through_last_absent _ _ Ht).
    by rewrite decide_True.
  - rewrite !append_cons. simpl. rewrite IH. by destruct s.
Qed.

Lemma rstrip_char_append (c : ascii) (s : string) :
  rstrip_char c (s +:+ String c "") = rstrip_char c s.
Proof.
  induction s as [|d s IH].
  - rewrite append_empty_l. simpl. by rewrite decide_True.
  - rewrite append_cons. simpl. by rewrite IH.
Qed.

Lemma rstrip_char_keeps (c : ascii) (s : string) :
  endswith_char s c = false → s ≠ "" → rstrip_char c s = s.
Proof.
  unfold endswith_char. induction s as [|d s IH]; [done |]. intros Hend _.
  destruct s as [|e s].
  - simpl in *. apply bool_decide_eq_false in Hend. by rewrite decide_False.
  - rewrite last_char_cons in Hend by done.
    change (rstrip_char c (String d (String e s)))
      with (match rstrip_char c (String e s) with
            | EmptyString => if decide (d = c) then EmptyString else String d EmptyString
            | kept => String d kept
            end).
    by rewrite IH.
Qed.

Lemma last_char_append (s t : string) :
  t ≠ "" → last_char (s +:+ t) = last_char t.
Proof.
  intros Ht. induction s as [|d s IH]; [done |].
  rewrite append_cons, last_char_cons; [done |].
  destruct s; [by rewrite append_empty_l | by rewrite append_cons].
Qed.

Lemma last_char_clean (c : ascii) (s : string) :
  contains c s = false → s ≠ "" → endswith_char s c = false.
Proof.
  unfold endswith_char. induction s as [|d s IH]; [done |]. intros H _.
  simpl in H. apply orb_false_iff in H as [Hd Hs].
  destruct s as [|e s]; [done |].
  rewrite last_char_cons by done. by apply IH.
Qed.

Lemma valid_name_inv (name : string) :
  valid_name name = true → name ≠ "" ∧ contains "/" name = false.
Proof.
  unfold valid_name. intros H. apply andb_true_iff in H as [Hne Hclean].
  apply negb_true_iff in Hne, Hclean. by apply String.eqb_neq in Hne.
Qed.

Lemma path_of_snoc_end (names : list string) (name : string) :
  valid_name name = true →
  endswith_char (path_of (names ++ [name])) "/" = false.
Proof.
  intros [Hne Hclean]%valid_name_inv. rewrite path_of_snoc.
  unfold endswith_char.
  rewrite last_char_append by (by destruct name).
  change ("/" +:+ name) with (String "/" name). rewrite last_char_cons by done.
  by apply last_char_clean.
Qed.

Lemma path_of_cons_shape (name : string) (rest : list string) :
  valid_name name = true →
  ∃ c tail, c ≠ "/"%char ∧ path_of (name :: rest) = String "/" (String c tail).
Proof.
  intros [Hne Hclean]%valid_name_inv. destruct name as [|c name]; [done |].
  exists c, (name +:+ path_of rest). split; [| done].
  simpl in Hclean. apply orb_false_iff in Hclean as [Hc _].
  by apply bool_decide_eq_false in Hc.
Qed.

Lemma path_of_snoc_shape (names : list string) (name : string) :
  Forall (λ n, valid_name n = true) names → valid_name name = true →
  ∃ c tail, c ≠ "/"%char ∧ path_of (names ++ [name]) = String "/" (String c tail).
Proof.
  intros Hnames Hname. destruct names as [|n names].
  - by apply path_of_cons_shape.
  - inversion Hnames; subst. by apply path_of_cons_shape.
Qed.

Lemma dirname_snoc (names : list string) (name : string) :
  Forall (λ n, valid_name n = true) names → valid_name name = true →
  dirname (path_of (names ++ [name])) = abs_path names.
Proof.
  intros Hnames Hname. pose proof Hname as [Hne Hclean]%valid_name_inv.
  unfold dirname. rewrite path_of_snoc.
  change ("/" +:+ name) with (String "/" name).
  rewrite through_last_append by done.
  destruct names as [|n names _] using rev_ind; [done |].
  apply Forall_app in Hnames as [Hnames Hn]. inversion Hn; subst.
  destruct (path_of_snoc_shape names n) as (c & tail & Hc & Hshape); [done.. |].
  assert (abs_path (names ++ [n]) = path_of (names ++ [n])) as ->
    by (by destruct names).
  rewrite rstrip_char_append.
  rewrite rstrip_char_keeps;
    [| by apply path_of_snoc_end | by rewrite Hshape].
  rewrite Hshape. rewrite !append_cons. simpl.
  by rewrite (bool_decide_eq_false_2 (c = "/"%char)).
Qed.

Lemma path_join_marker (names : list string) (name : string) :
  Forall (λ n, valid_name n = true) names → valid_name name = true →
  path_join (path_of (names ++ [name])) BAZEL_WORKSPACE_FILE
  = path_of (names ++ [name]) +:+ "/WORKSPACE".
Proof.
  intros Hnames Hname. unfold path_join.
  rewrite path_of_snoc_end by done.
  destruct (path_of_snoc_shape names name) as (c & tail & Hc & ->); done.
Qed.

Lemma find_loop_root (fuel : nat) (w : World) : find_loop (S fuel) w "/" = Ok "/".
Proof. reflexivity. Qed.

Lemma find_loop_snoc (fuel : nat) (w : World) (names : list string) (name : string) :
  Forall (λ n, valid_name n = true) names → valid_name name = true →
  find_loop (S fuel) w (path_of (names ++ [name]))
  = if path_exists w (path_join (path_of (names ++ [name])) BAZEL_WORKSPACE_FILE)
    then Ok (path_of (names ++ [name]))
    else find_loop fuel w (abs_path names).
Proof.
  intros Hnames Hname. cbn [find_loop]. rewrite dirname_snoc by done.
  destruct (path_of_snoc_shape names name) as (c & tail & Hc & Hshape); [done.. |].
  assert ((path_of (names ++ [name]) =? "")%string = false) as ->
    by (by rewrite Hshape).
  assert ((path_of (names ++ [name]) =? "/")%string = false) as ->
    by (by rewrite Hshape).
  by destruct (path_exists w _).
Qed.

Lemma abs_path_snoc (names : list string) (name : string) :
  abs_path (names ++ [name]) = path_of (names ++ [name]).
Proof. by destruct names. Qed.

(** On a canonical path the loop stops, within one test per name and one
    more, at the nearest directory with the marker, or at the root. *)
Lemma find_loop_nearest (w : World) (inner_first : list string) (fuel : nat) :
  Forall (λ n, valid_name n = true) inner_first →
  (length inner_first < fuel)%nat →
  find_loop fuel w (abs_path (rev inner_first))
  = Ok (abs_path (rev (nearest w inner_first))).
Proof.
  revert fuel. induction inner_first as [|name outer IH]; intros fuel Hvalid Hfuel.
  - destruct fuel; [lia | reflexivity].
  - inversion Hvalid as [|? ? Hname Houter]; subst.
    destruct fuel as [|fuel]; [lia |]. simpl in Hfuel.
    cbn [nearest]. cbn [rev]. rewrite abs_path_snoc.
    rewrite find_loop_snoc; [| by apply Forall_rev | done].
    destruct (path_exists w _).
    + cbn [rev]. by rewrite abs_path_snoc.
    + apply IH; [done | lia].
Qed.

Lemma _find_workspace_directory_nearest (w : World) (names : list string) :
  Forall (λ n, valid_name n = true) names → cwd w = abs_path names →
  _find_workspace_directory w = Ok (abs_path (rev (nearest w (rev names)))).
Proof.
  intros Hvalid Hcwd. unfold _find_workspace_directory. rewrite Hcwd.
  pose proof (find_loop_nearest w (rev names)
                (S (String.length (abs_path names)))) as Hloop.
  rewrite rev_involutive in Hloop. apply Hloop; [by apply Forall_rev |].
  rewrite length_rev. pose proof (path_of_length names).
  destruct names; simpl in *; lia.
Qed.

(** ** The bound on the loop is enough *)

Lemma through_last_prefix (c : ascii) (s : string) :
  ∃ t, s = through_last c s +:+ t.
Proof.
  induction s as [|d s [t Ht]]; [by exists "" |].
  simpl. destruct (through_last c s) as [|e more].
  - rewrite append_empty_l in Ht. subst t.
    destruct (decide (d = c)); [by exists s | by exists (String d s)].
  - exists t. by rewrite append_cons, <- Ht.
Qed.

Lemma rstrip_char_prefix (c : ascii) (s : string) :
  ∃ t, s = rstrip_char c s +:+ t.
Proof.
  induction s as [|d s [t Ht]]; [by exists "" |].
  simpl. destruct (rstrip_char c s) as [|e kept].
  - rewrite append_empty_l in Ht. subst t.
    destruct (decide (d = c)); [by exists (String d s) | by exists s].
  - exists t. by rewrite append_cons, <- Ht.
Qed.

Lemma through_last_end (c : ascii) (s : string) :
  through_last c s ≠ "" → endswith_char (through_last c s) c = true.
Proof.
  unfold endswith_char. induction s as [|d s IH]; [done |].
  simpl. destruct (through_last c s) as [|e more].
  - destruct (decide (d = c)) as [->|]; [| done].
    intros _. simpl. by apply bool_decide_eq_true.
  - intros _. rewrite last_char_cons by done. by apply IH.
Qed.

Lemma endswith_char_snoc (c : ascii) (s : string) :
  endswith_char s c = true → ∃ s', s = s' +:+ String c "".
Proof.
  unfold endswith_char. induction s as [|d s IH]; [done |].
  destruct s as [|e s].
  - simpl. intros ->%bool_decide_eq_true. by exists "".
  - rewrite last_char_cons by done. intros [s' Hs']%IH.
    exists (String d s'). by rewrite append_cons, <- Hs'.
Qed.

Lemma rstrip_char_shorter (c : ascii) (s : string) :
  endswith_char s c = true →
  (String.length (rstrip_char c s) < String.length s)%nat.
Proof.
  intros [s' ->]%endswith_char_snoc. rewrite rstrip_char_append.
  destruct (rstrip_char_prefix c s') as [t Ht].
  apply (f_equal String.length) in Ht. rewrite string_length_append in *.
  simpl. lia.
Qed.

Lemma dirname_length (p : string) :
  dirname p = p ∨ (String.length (dirname p) < String.length p)%nat.
Proof.
  unfold dirname. destruct (through_last_prefix "/" p) as [t Ht].
  pose proof (through_last_end "/" p) as Hend.
  destruct (through_last "/" p) as [|c head] eqn:Hhead.
  - simpl. destruct p; [by left | right; simpl; lia].
  - cbn [String.eqb negb andb].
    pose proof (f_equal String.length Ht) as Hlen.
    rewrite string_length_append in Hlen.
    destruct (all_char "/" (String c head)); cbn [negb].
    + destruct t as [|d t].
      * left. by rewrite append_empty_r in Ht.
      * right. simpl in *. lia.
    + right. pose proof (rstrip_char_shorter "/" (String c head)) as Hshort.
      specialize (Hshort (Hend ltac:(done))). simpl in *. lia.
Qed.

Lemma find_loop_stuck (w : World) (directory : string) (fuel : nat) :
  negb (directory =? "")%string && negb (directory =? "/")%string
  && negb (path_exists w (path_join directory BAZEL_WORKSPACE_FILE)) = true →
  dirname directory = directory →
  find_loop fuel w directory = Diverge.
Proof.
  intros Hcond Hfix. induction fuel as [|fuel IH]; [done |].
  cbn [find_loop]. by rewrite Hcond, Hfix.
Qed.

Lemma find_loop_more_fuel (w : World) (fuel fuel' : nat) (directory found : string) :
  find_loop fuel w directory = Ok found → (fuel ≤ fuel')%nat →
  find_loop fuel' w directory = Ok found.
Proof.
  revert fuel' directory. induction fuel as [|fuel IH]; intros fuel' directory; [done |].
  intros Hfound Hle. destruct fuel' as [|fuel']; [lia |].
  cbn [find_loop] in *.
  destruct (negb (directory =? "")%string && negb (directory =? "/")%string
            && negb (path_exists w (path_join directory BAZEL_WORKSPACE_FILE)));
    [| done].
  apply (IH fuel'); [done | lia].
Qed.

(** A loop that stops at all stops within the bound that
    [_find_workspace_directory] allows: [Diverge] there stands for a loop
    that never ends. *)
Lemma find_loop_fuel_enough (w : World) (fuel : nat) (directory found : string) :
  find_loop fuel w directory = Ok found →
  find_loop (S (String.length directory)) w directory = Ok found.
Proof.
  revert directory. induction fuel as [|fuel IH]; intros directory; [done |].
  cbn [find_loop].
  destruct (negb (directory =? "")%string && negb (directory =? "/")%string
            && negb (path_exists w (path_join directory BAZEL_WORKSPACE_FILE)))
    eqn:Hcond; [| done].
  intros Hfound. destruct (dirname_length directory) as [Hfix|Hshort].
  - rewrite Hfix in Hfound. by rewrite find_loop_stuck in Hfound.
  - apply IH in Hfound. eapply find_loop_more_fuel; [exact Hfound | lia].
Qed.

Lemma find_loop_never_raises (w : World) (fuel : nat) (directory : string) (e : PyErr) :
  find_loop fuel w directory ≠ Raise e.
Proof.
  revert directory. induction fuel as [|fuel IH]; intros directory; [done |].
  cbn [find_loop]. by destruct (_ && _).
Qed.

(** X22: when the loop of the lookup has not stopped after as many tests
    of its condition as the start has characters, and one more, it never
    stops. *)
Lemma _find_workspace_directory_diverges (w : World) :
  _find_workspace_directory w = Diverge →
  ∀ fuel, find_loop fuel w (cwd w) = Diverge.
Proof.
  intros Hdiverge fuel. destruct (find_loop fuel w (cwd w)) as [found|e|] eqn:E.
  - apply find_loop_fuel_enough in E. unfold _find_workspace_directory in Hdiverge.
    congruence.
  - by apply find_loop_never_raises in E.
  - done.
Qed.

Lemma nearest_snoc (w : World) (names : list string) (name : string) :
  nearest w (rev (names ++ [name]))
  = if path_exists w (path_join (abs_path (names ++ [name])) BAZEL_WORKSPACE_FILE)
    then rev (names ++ [name])
    else nearest w (rev names).
Proof.
  rewrite rev_app_distr. cbn [rev app nearest].
  by rewrite rev_involutive.
Qed.

Lemma nearest_no_marker (w : World) (names : list string) :
  (∀ k, path_exists w (path_join (abs_path (take k names)) BAZEL_WORKSPACE_FILE) = false) →
  nearest w (rev names) = [].
Proof.
  induction names as [|name names IH] using rev_ind; intros Hnone; [done |].
  rewrite nearest_snoc.
  pose proof (Hnone (length (names ++ [name]))) as Hfull.
  rewrite firstn_all in Hfull. rewrite Hfull.
  apply IH. intros k. destruct (decide (k ≤ length names)%nat) as [Hk|Hk].
  - specialize (Hnone k). by rewrite take_app_le in Hnone.
  - specialize (Hnone (length names)).
    rewrite take_app_le, firstn_all in Hnone by done.
    by rewrite take_ge by lia.
Qed.

(** C5, as amended: from a canonical working directory the lookup always
    stops and returns, without raising, the nearest directory at or above
    the start that holds the marker; started three levels below a
    directory with the marker, with no marker in the three directories in
    between, it returns that directory; with no marker in any ancestor it
    returns the root path [/]. *)
Theorem find_workspace_directory_canonical (w : World) (names : list string) :
  Forall (λ n, valid_name n = true) names → cwd w = abs_path names →
  _find_workspace_directory w = Ok (abs_path (rev (nearest w (rev names))))
  ∧ (∀ ms a b c, names = ms ++ [a; b; c] →
       path_exists w (path_join (abs_path ms) BAZEL_WORKSPACE_FILE) = true →
       path_exists w (path_join (abs_path (ms ++ [a])) BAZEL_WORKSPACE_FILE) = false →
       path_exists w (path_join (abs_path (ms ++ [a; b])) BAZEL_WORKSPACE_FILE) = false →
       path_exists w (path_join (abs_path (ms ++ [a; b; c])) BAZEL_WORKSPACE_FILE) = false →
       _find_workspace_directory w = Ok (abs_path ms))
  ∧ ((∀ k, path_exists w (path_join (abs_path (take k names)) BAZEL_WORKSPACE_FILE)
           = false) →
     _find_workspace_directory w = Ok "/").
Proof.
  intros Hvalid Hcwd.
  rewrite (_find_workspace_directory_nearest w names Hvalid Hcwd).
  split; [done |]. split.
  - intros ms a b c -> Hms Ha Hb Hc. do 2 f_equal.
    replace (ms ++ [a; b; c]) with (((ms ++ [a]) ++ [b]) ++ [c]) in *
      by (by rewrite <- !app_assoc).
    replace (ms ++ [a; b]) with ((ms ++ [a]) ++ [b]) in Hb
      by (by rewrite <- !app_assoc).
    rewrite nearest_snoc, Hc, nearest_snoc, Hb, nearest_snoc, Ha.
    destruct ms as [|m ms _] using rev_ind; [done |].
    by rewrite nearest_snoc, Hms, rev_involutive.
  - intros Hnone. by rewrite nearest_no_marker.
Qed.

Lemma find_workspace_directory_canonical_witness :
  Forall (λ n, valid_name n = true) ["home"; "u"; "proj"; "a"; "b"; "c"]
  ∧ cwd world_with_overrides = abs_path ["home"; "u"; "proj"; "a"; "b"; "c"]
  ∧ _find_workspace_directory world_with_overrides = Ok "/home/u/proj".
Proof.
  split; [repeat constructor |]. split; [reflexivity |].
  destruct (find_workspace_directory_canonical world_with_overrides
              ["home"; "u"; "proj"; "a"; "b"; "c"]) as (_ & Hbelow & _);
    [repeat constructor | reflexivity |].
  apply (Hbelow ["home"; "u"; "proj"] "a" "b" "c"); reflexivity.
Defined.

(** C5 as stated fails: with no marker in any ancestor the lookup returns
    the root path [/] and not the empty string. *)
Lemma no_marker_returns_root_counterexample :
  (∀ p, path_exists world_without_compose p = false)
  ∧ cwd world_without_compose = "/work"
  ∧ _find_workspace_directory world_without_compose = Ok "/"
  ∧ _find_workspace_directory world_without_compose ≠ Ok "".
Proof. split; [done |]. split; [done |]. split; [reflexivity | discriminate]. Qed.

(** * Further properties of the code *)

(** ** Shapes of the ports and env-vars values *)

Lemma truthy_PList_PStr (l : list string) :
  l ≠ [] → truthy (PList (PStr <$> l)) = true.
Proof. by destruct l. Qed.

(** X1: a non-empty list of strings is used as it is, entry by entry and
    without trimming, by [_add_ports] and by [_add_env_vars]. *)
Theorem list_of_strings_as_is (self : DockerInstance) (l : list string) :
  l ≠ [] →
  _add_ports self (PList (PStr <$> l)) = Ok (set_ports self (spec_fragment "-p" l))
  ∧ _add_env_vars self (PList (PStr <$> l))
    = Ok (set_env_vars self (spec_fragment "-e" l)).
Proof.
  intros Hl. unfold _add_ports, _add_env_vars.
  rewrite truthy_PList_PStr by done.
  cbn [negb isinstance_Iterable andb mbind Result_bind].
  rewrite !str_join_PStr, <- !render_fragment by done. by split.
Qed.

Lemma list_of_strings_as_is_witness :
  [" 80 "; "443"] ≠ []
  ∧ _add_ports blank_instance (PList [PStr " 80 "; PStr "443"])
    = Ok (set_ports blank_instance (spec_fragment "-p" [" 80 "; "443"])).
Proof.
  split; [discriminate |].
  apply (list_of_strings_as_is blank_instance [" 80 "; "443"]). discriminate.
Defined.

Lemma all_str_None_nonempty (items : list pyval) :
  all_str items = None → truthy (PList items) = true.
Proof. by destruct items. Qed.

(** X2: a list with an item that is not a string passes the test on the
    type and fails in [join]: both methods raise a [TypeError]. *)
Theorem list_with_non_string_raises (self : DockerInstance) (items : list pyval) :
  all_str items = None →
  _add_ports self (PList items) = Raise TypeError
  ∧ _add_env_vars self (PList items) = Raise TypeError.
Proof.
  intros Hitems. unfold _add_ports, _add_env_vars, str_join.
  rewrite all_str_None_nonempty by done.
  cbn [negb isinstance_Iterable andb mbind Result_bind]. by rewrite Hitems.
Qed.

Lemma list_with_non_string_raises_witness :
  all_str [PStr "80"; PInt 443] = None
  ∧ _add_ports blank_instance (PList [PStr "80"; PInt 443]) = Raise TypeError.
Proof.
  split; [reflexivity |].
  apply (list_with_non_string_raises blank_instance [PStr "80"; PInt 443]).
  reflexivity.
Defined.

Lemma _add_ports_accepted (v : pyval) :
  accepted_shape v = true →
  ∃ fragment, ∀ self, _add_ports self v = Ok (set_ports self fragment).
Proof.
  intros Hv. destruct v as [|b|n|s|items].
  - by exists "".
  - destruct b; [done | by exists ""].
  - destruct (decide (n = 0)) as [->|Hn]; [by exists "" |].
    apply Z.eqb_neq in Hn. unfold accepted_shape in Hv. simpl in Hv.
    rewrite Hn in Hv. done.
  - destruct (decide (s = "")) as [->|Hs]; [by exists "" |].
    eexists. intros self. by apply _add_ports_str.
  - destruct items as [|item items]; [by exists "" |].
    unfold accepted_shape in Hv. cbn [truthy negb orb] in Hv.
    apply bool_decide_eq_true in Hv. destruct Hv as [l Hl].
    eexists. intros self. unfold _add_ports, str_join.
    cbn [truthy negb isinstance_Iterable andb mbind Result_bind].
    rewrite Hl. reflexivity.
Qed.

Lemma rejected_shape_cases (v : pyval) :
  accepted_shape v = false →
  (truthy v = true ∧ isinstance_str v = false ∧ isinstance_Iterable v = false)
  ∨ (∃ items, v = PList items ∧ all_str items = None).
Proof.
  intros Hv. destruct v as [|b|n|s|items]; try done.
  - destruct b; [by left | done].
  - unfold accepted_shape in Hv. simpl in Hv. rewrite orb_false_r in Hv.
    apply negb_false_iff in Hv. by left.
  - unfold accepted_shape in Hv. simpl in Hv. by rewrite orb_true_r in Hv.
  - right. exists items. split; [done |].
    unfold accepted_shape in Hv. apply orb_false_iff in Hv as [_ Hv].
    apply bool_decide_eq_false in Hv. destruct (all_str items); [| done].
    by destruct Hv.
Qed.

Lemma _add_ports_rejected (self : DockerInstance) (v : pyval) :
  accepted_shape v = false → ∃ e, _add_ports self v = Raise e.
Proof.
  intros [(Ht & Hs & Hi)|(items & -> & Hitems)]%rejected_shape_cases.
  - eexists. unfold _add_ports. rewrite Ht, Hi. by destruct v.
  - exists TypeError. unfold _add_ports, str_join.
    rewrite all_str_None_nonempty by done.
    cbn [negb isinstance_Iterable andb mbind Result_bind]. by rewrite Hitems.
Qed.

Lemma _add_env_vars_rejected (self : DockerInstance) (v : pyval) :
  accepted_shape v = false → ∃ e, _add_env_vars self v = Raise e.
Proof.
  intros [(Ht & Hs & Hi)|(items & -> & Hitems)]%rejected_shape_cases.
  - eexists. unfold _add_env_vars. rewrite Ht, Hi. by destruct v.
  - exists TypeError. unfold _add_env_vars, str_join.
    rewrite all_str_None_nonempty by done.
    cbn [negb isinstance_Iterable andb mbind Result_bind]. by rewrite Hitems.
Qed.


(** ** Building the instance *)

Lemma from_config_unfold (w : World) (file : gmap string pyval) :
  _config_from_file w = Ok file →
  from_config w
  = let config := dict_update file (_config_from_environment w) in
    __init__ (dict_get config "DAZEL_WORKSPACE_ROOT" PNone)
             (dict_get config "DAZEL_PORTS" DEFAULT_PORTS)
             (dict_get config "DAZEL_ENV_VARS" DEFAULT_ENV_VARS)
             (dict_get config "DAZEL_DOCKER_COMPOSE_FILE" DEFAULT_DOCKER_COMPOSE_FILE)
             (dict_get config "DAZEL_BAZEL_RC_FILE" DEFAULT_BAZEL_RC_FILE)
             (dict_get config "DAZEL_DOCKER_RUN_PRIVILEGED" DEFAULT_DOCKER_RUN_PRIVILEGED)
             (dict_get config "DAZEL_USER" DEFAULT_USER).
Proof. intros Hfile. unfold from_config, from_config_merged. by rewrite Hfile. Qed.

Lemma __init___accepted (root ports_value env_value compose rc privileged who : pyval) :
  accepted_shape ports_value = true → accepted_shape env_value = true →
  ∃ p e,
    __init__ root ports_value env_value compose rc privileged who
    = Ok {| workspace_root := root;
            docker_compose_file := compose;
            bazel_rc_file := rc;
            docker_run_privileged := privileged;
            user := who;
            ports := p;
            env_vars := e |}
    ∧ (∀ self, _add_ports self ports_value = Ok (set_ports self p))
    ∧ (∀ self, _add_env_vars self env_value = Ok (set_env_vars self e)).
Proof.
  intros Hports Hvars.
  destruct (_add_ports_accepted _ Hports) as [p Hp].
  destruct (_add_env_vars_accepted _ Hvars) as [e He].
  exists p, e. split; [| done].
  unfold __init__. rewrite Hp. cbn [mbind Result_bind]. by rewrite He.
Qed.

(** X4: when the ports value and the env-vars value of the merged
    configuration have an accepted shape, [from_config] returns an
    instance whose five plain fields are what [get] reads from the merged
    configuration, each with its default, and whose two fragments are the
    ones [_add_ports] and [_add_env_vars] store. *)
Theorem from_config_reads_merged (w : World) (file : gmap string pyval) :
  _config_from_file w = Ok file →
  accepted_shape (dict_get (dict_update file (_config_from_environment w))
                           "DAZEL_PORTS" DEFAULT_PORTS) = true →
  accepted_shape (dict_get (dict_update file (_config_from_environment w))
                           "DAZEL_ENV_VARS" DEFAULT_ENV_VARS) = true →
  let config := dict_update file (_config_from_environment w) in
  ∃ p e,
    from_config w
    = Ok {| workspace_root := dict_get config "DAZEL_WORKSPACE_ROOT" PNone;
            docker_compose_file :=
              dict_get config "DAZEL_DOCKER_COMPOSE_FILE" DEFAULT_DOCKER_COMPOSE_FILE;
            bazel_rc_file := dict_get config "DAZEL_BAZEL_RC_FILE" DEFAULT_BAZEL_RC_FILE;
            docker_run_privileged :=
              dict_get config "DAZEL_DOCKER_RUN_PRIVILEGED" DEFAULT_DOCKER_RUN_PRIVILEGED;
            user := dict_get config "DAZEL_USER" DEFAULT_USER;
            ports := p;
            env_vars := e |}
    ∧ (∀ self, _add_ports self (dict_get config "DAZEL_PORTS" DEFAULT_PORTS)
               = Ok (set_ports self p))
    ∧ (∀ self, _add_env_vars self (dict_get config "DAZEL_ENV_VARS" DEFAULT_ENV_VARS)
               = Ok (set_env_vars self e)).
Proof.
  intros Hfile Hports Hvars config. rewrite (from_config_unfold w file Hfile).
  by apply __init___accepted.
Qed.

Lemma from_config_reads_merged_witness :
  _config_from_file world_with_overrides = Ok file_with_overrides
  ∧ accepted_shape
      (dict_get (dict_update file_with_overrides
                             (_config_from_environment world_with_overrides))
                "DAZEL_PORTS" DEFAULT_PORTS) = true
  ∧ accepted_shape
      (dict_get (dict_update file_with_overrides
                             (_config_from_environment world_with_overrides))
                "DAZEL_ENV_VARS" DEFAULT_ENV_VARS) = true
  ∧ ∃ p e,
      from_config world_with_overrides
      = Ok {| workspace_root := PStr "/home/u/proj";
              docker_compose_file := PStr "";
              bazel_rc_file := PStr "";
              docker_run_privileged := PBool false;
              user := PStr "ci";
              ports := p;
              env_vars := e |}.
Proof.
  split; [vm_compute; reflexivity |].
  split; [vm_compute; reflexivity |].
  split; [vm_compute; reflexivity |].
  destruct (from_config_reads_merged world_with_overrides file_with_overrides)
    as (p & e & Hconfig & _); [vm_compute; reflexivity.. |].
  exists p, e. rewrite Hconfig. vm_compute. reflexivity.
Defined.

(** X5: when the ports value or the env-vars value of the merged
    configuration has no accepted shape, [from_config] raises and there is
    no instance. *)
Theorem from_config_raises_on_rejected (w : World) (file : gmap string pyval) :
  _config_from_file w = Ok file →
  accepted_shape (dict_get (dict_update file (_config_from_environment w))
                           "DAZEL_PORTS" DEFAULT_PORTS) = false
  ∨ accepted_shape (dict_get (dict_update file (_config_from_environment w))
                             "DAZEL_ENV_VARS" DEFAULT_ENV_VARS) = false →
  ∃ e, from_config w = Raise e.
Proof.
  intros Hfile Hbad. rewrite (from_config_unfold w file Hfile). cbn zeta.
  unfold __init__.
  set (self := {| workspace_root := _ |}).
  destruct (accepted_shape (dict_get _ "DAZEL_PORTS" DEFAULT_PORTS)) eqn:Hports.
  - destruct Hbad as [? | Hvars]; [done |].
    destruct (_add_ports_accepted _ Hports) as [p Hp]. rewrite Hp.
    cbn [mbind Result_bind]. by apply _add_env_vars_rejected.
  - destruct (_add_ports_rejected self _ Hports) as [e He].
    exists e. by rewrite He.
Qed.

Lemma from_config_raises_on_rejected_witness :
  (∃ file, _config_from_file world_bad_ports = Ok file
           ∧ file !! "DAZEL_PORTS" = Some (PInt 8080))
  ∧ ∃ e, from_config world_bad_ports = Raise e.
Proof.
  split; [eexists; split; vm_compute; reflexivity |].
  eapply (from_config_raises_on_rejected world_bad_ports);
    [vm_compute; reflexivity | left; vm_compute; reflexivity].
Defined.

Lemma _config_from_environment_empty (w : World) :
  (∀ key s, environ w !! key = Some s → startswith key "DAZEL_" = false) →
  _config_from_environment w = ∅.
Proof.
  intros Hnone. apply map_eq. intros key.
  rewrite _config_from_environment_lookup, lookup_empty.
  destruct (startswith key "DAZEL_") eqn:Hkey; [| done].
  destruct (environ w !! key) as [s|] eqn:Hs; [| done].
  specialize (Hnone key s Hs). congruence.
Qed.

(** X6: with no [.dazelrc] in the workspace directory and no environment
    variable whose name starts with [DAZEL_], every setting takes its
    default: the workspace root is the directory found, the compose file,
    the bazelrc file and the user are empty, the privileged flag is off and
    both fragments are empty. *)
Theorem from_config_defaults (w : World) (directory : string) :
  _find_workspace_directory w = Ok directory →
  path_exists w (path_join directory DAZEL_RC_FILENAME) = false →
  (∀ key s, environ w !! key = Some s → startswith key "DAZEL_" = false) →
  from_config w
  = Ok {| workspace_root := PStr directory;
          docker_compose_file := PStr "";
          bazel_rc_file := PStr "";
          docker_run_privileged := PBool false;
          user := PStr "";
          ports := "";
          env_vars := "" |}.
Proof.
  intros Hfind Hrc Henv.
  assert (_config_from_file w = Ok {[ "DAZEL_WORKSPACE_ROOT" := PStr directory ]})
    as Hfile.
  { unfold _config_from_file. rewrite Hfind. cbn [mbind Result_bind].
    by rewrite Hrc. }
  rewrite (from_config_unfold w _ Hfile).
  rewrite _config_from_environment_empty by done.
  reflexivity.
Qed.

Lemma from_config_defaults_witness :
  _find_workspace_directory world_without_compose = Ok "/"
  ∧ path_exists world_without_compose (path_join "/" DAZEL_RC_FILENAME) = false
  ∧ environ world_without_compose = ∅
  ∧ from_config world_without_compose
    = Ok {| workspace_root := PStr "/";
            docker_compose_file := PStr "";
            bazel_rc_file := PStr "";
            docker_run_privileged := PBool false;
            user := PStr "";
            ports := "";
            env_vars := "" |}.
Proof.
  split; [reflexivity |]. split; [reflexivity |]. split; [reflexivity |].
  apply (from_config_defaults world_without_compose "/");
    [reflexivity | reflexivity |].
  intros key s Hs. change ((∅ : gmap string string) !! key = Some s) in Hs.
  by rewrite lookup_empty in Hs.
Defined.

(** X7: an exception of [from_config] ends the script before any process
    is spawned, with exit code 1. *)
Theorem config_error_spawns_nothing (w : World) (e : PyErr) :
  from_config w = Raise e →
  main w [] = (Raise e, []) ∧ exit_code w = Some 1.
Proof.
  intros Hconfig.
  assert (main w [] = (Raise e, [])) as Hmain
    by (unfold main, lift, mbind, Run_bind; by rewrite Hconfig).
  split; [done |]. unfold exit_code. by rewrite Hmain.
Qed.

Lemma config_error_spawns_nothing_witness :
  from_config world_bad_ports
  = Raise (RuntimeError
      "DAZEL_PORTS must be comma-separated string or python iterable of strings")
  ∧ main world_bad_ports []
    = (Raise (RuntimeError
         "DAZEL_PORTS must be comma-separated string or python iterable of strings"),
       [])
  ∧ exit_code world_bad_ports = Some 1.
Proof.
  split; [vm_compute; reflexivity |].
  apply (config_error_spawns_nothing world_bad_ports). vm_compute. reflexivity.
Defined.

(** ** The environment *)

(** X8: a key is in the environment-based source exactly when its name
    starts with [DAZEL_] and the environment has it, and its value there is
    the string of the environment. *)
Theorem _config_from_environment_spec (w : World) (key : string) (v : pyval) :
  _config_from_environment w !! key = Some v
  ↔ startswith key "DAZEL_" = true ∧ ∃ s, environ w !! key = Some s ∧ v = PStr s.
Proof.
  rewrite _config_from_environment_lookup.
  destruct (startswith key "DAZEL_"); [| by split; [| intros [? _]]].
  destruct (environ w !! key) as [s|]; simpl; split.
  - intros [= <-]. split; [done | by exists s].
  - by intros [_ (s' & [= <-] & ->)].
  - done.
  - by intros [_ (s' & ? & _)].
Qed.




(** X10: a value that comes from the environment is a string, and every
    string but the empty one counts as true: when the environment sets
    [DAZEL_DOCKER_RUN_PRIVILEGED] to a non-empty string, be it "0" or
    "False", the instance has the privileged flag on. *)
Theorem privileged_from_environment (w : World) (file : gmap string pyval)
    (s : string) :
  _config_from_file w = Ok file →
  environ w !! "DAZEL_DOCKER_RUN_PRIVILEGED" = Some s → s ≠ "" →
  accepted_shape (dict_get (dict_update file (_config_from_environment w))
                           "DAZEL_PORTS" DEFAULT_PORTS) = true →
  accepted_shape (dict_get (dict_update file (_config_from_environment w))
                           "DAZEL_ENV_VARS" DEFAULT_ENV_VARS) = true →
  ∃ di, from_config w = Ok di
        ∧ docker_run_privileged di = PStr s
        ∧ truthy (docker_run_privileged di) = true.
Proof.
  intros Hfile Henv Hs Hports Hvars. rewrite (from_config_unfold w file Hfile).
  destruct (__init___accepted
    (dict_get (dict_update file (_config_from_environment w))
       "DAZEL_WORKSPACE_ROOT" PNone) _ _
    (dict_get (dict_update file (_config_from_environment w))
       "DAZEL_DOCKER_COMPOSE_FILE" DEFAULT_DOCKER_COMPOSE_FILE)
    (dict_get (dict_update file (_config_from_environment w))
       "DAZEL_BAZEL_RC_FILE" DEFAULT_BAZEL_RC_FILE)
    (dict_get (dict_update file (_config_from_environment w))
       "DAZEL_DOCKER_RUN_PRIVILEGED" DEFAULT_DOCKER_RUN_PRIVILEGED)
    (dict_get (dict_update file (_config_from_environment w))
       "DAZEL_USER" DEFAULT_USER) Hports Hvars) as (p & e & Hinit & _).
  eexists. split; [exact Hinit |]. cbn [docker_run_privileged].
  assert (dict_get (dict_update file (_config_from_environment w))
            "DAZEL_DOCKER_RUN_PRIVILEGED" DEFAULT_DOCKER_RUN_PRIVILEGED = PStr s) as ->.
  { unfold dict_get.
    by rewrite dict_update_lookup, _config_from_environment_lookup, Henv. }
  split; [done | by apply truthy_PStr].
Qed.

Lemma privileged_from_environment_witness :
  _config_from_file
    (with_environ world_with_overrides {[ "DAZEL_DOCKER_RUN_PRIVILEGED" := "False" ]})
  = Ok file_with_overrides
  ∧ "False" ≠ ""
  ∧ ∃ di, from_config
            (with_environ world_with_overrides
               {[ "DAZEL_DOCKER_RUN_PRIVILEGED" := "False" ]}) = Ok di
          ∧ docker_run_privileged di = PStr "False"
          ∧ truthy (docker_run_privileged di) = true.
Proof.
  split; [vm_compute; reflexivity |]. split; [discriminate |].
  apply (privileged_from_environment
           (with_environ world_with_overrides
              {[ "DAZEL_DOCKER_RUN_PRIVILEGED" := "False" ]})
           file_with_overrides "False");
    [vm_compute; reflexivity | vm_compute; reflexivity | discriminate
    | vm_compute; reflexivity | vm_compute; reflexivity].
Defined.

(** ** Starting the stack *)

(** X11: when the search for [docker-compose] does not end with 0, [start]
    returns 1 for every instance and has spawned that search only: the
    services are not brought up. *)
Theorem start_without_executable (w : World) (self : DockerInstance) (tr : Trace) :
  returncode (shell w tr probe) ≠ 0 →
  start w self tr = (Ok 1, tr ++ [probe]).
Proof.
  intros Hprobe. unfold start, mbind, Run_bind.
  rewrite _docker_compose_exists_spawns.
  apply Z.eqb_neq in Hprobe. by rewrite Hprobe.
Qed.

Lemma start_without_executable_witness :
  returncode (shell world_without_compose [] probe) ≠ 0
  ∧ start world_without_compose compose_instance [] = (Ok 1, [probe]).
Proof.
  split; [discriminate |].
  apply (start_without_executable world_without_compose compose_instance []).
  discriminate.
Defined.

(** X12: when [docker-compose] is found and the compose file is a
    non-empty string, [start] spawns, after the search, one
    [docker-compose ... up -d --remove-orphans] with the project name
    [dazel] on the compose file joined to the workspace root, and returns
    the return code of that process. *)
Theorem start_with_compose_file (w : World) (self : DockerInstance) (tr : Trace)
    (root file : string) :
  workspace_root self = PStr root → docker_compose_file self = PStr file →
  file ≠ "" → returncode (shell w tr probe) = 0 →
  let command := "COMPOSE_PROJECT_NAME=dazel docker-compose -f "
                 +:+ path_join root file +:+ " up -d --remove-orphans" in
  start w self tr
  = (Ok (returncode (shell w (tr ++ [probe]) command)), tr ++ [probe; command]).
Proof.
  intros Hroot Hfile Hne Hprobe command. unfold start, mbind, Run_bind.
  rewrite _docker_compose_exists_spawns, Hprobe. cbn [Z.eqb negb].
  unfold _start_compose_services. rewrite Hroot, Hfile, truthy_PStr by done.
  cbn [negb]. unfold lift, mbind, Run_bind, os_path_join,
    _run_silent_command, subprocess_call.
  by rewrite <- app_assoc.
Qed.

Lemma start_with_compose_file_witness :
  returncode (shell world_compose_fails [] probe) = 0
  ∧ start world_compose_fails compose_instance []
    = (Ok 3,
       [probe;
        "COMPOSE_PROJECT_NAME=dazel docker-compose -f /home/u/proj/docker-compose.yml up -d --remove-orphans"]).
Proof.
  split; [reflexivity |].
  apply (start_with_compose_file world_compose_fails compose_instance []
           "/home/u/proj" "docker-compose.yml");
    [reflexivity | reflexivity | discriminate | reflexivity].
Defined.

Lemma _start_compose_services_type_error (w : World) (self : DockerInstance)
    (tr : Trace) :
  truthy (docker_compose_file self) = true →
  isinstance_str (workspace_root self) = false
  ∨ isinstance_str (docker_compose_file self) = false →
  _start_compose_services w self tr = (Raise TypeError, tr).
Proof.
  intros Htrue Hbad. unfold _start_compose_services. rewrite Htrue. cbn [negb].
  unfold lift, mbind, Run_bind, os_path_join.
  destruct Hbad as [Hbad|Hbad].
  - by destruct (workspace_root self).
  - by destruct (workspace_root self), (docker_compose_file self).
Qed.

(** X13: when [docker-compose] is found, a compose file that counts as
    true and is not a string, or one that comes with a workspace root that
    is not a string, makes [start] raise a [TypeError] in [os.path.join]:
    the search is the only process spawned and the services are not
    brought up. *)
Theorem start_compose_path_type_error (w : World) (self : DockerInstance)
    (tr : Trace) :
  returncode (shell w tr probe) = 0 →
  truthy (docker_compose_file self) = true →
  isinstance_str (workspace_root self) = false
  ∨ isinstance_str (docker_compose_file self) = false →
  start w self tr = (Raise TypeError, tr ++ [probe]).
Proof.
  intros Hprobe Htrue Hbad. unfold start, mbind, Run_bind.
  rewrite _docker_compose_exists_spawns, Hprobe. cbn [Z.eqb negb].
  by rewrite _start_compose_services_type_error.
Qed.

Lemma start_compose_path_type_error_witness :
  returncode (shell world_compose_fails [] probe) = 0
  ∧ truthy (docker_compose_file list_compose_instance) = true
  ∧ isinstance_str (docker_compose_file list_compose_instance) = false
  ∧ start world_compose_fails list_compose_instance []
    = (Raise TypeError, [probe]).
Proof.
  split; [reflexivity |]. split; [reflexivity |]. split; [reflexivity |].
  apply (start_compose_path_type_error world_compose_fails list_compose_instance []);
    [reflexivity | reflexivity | right; reflexivity].
Defined.

(** X14: the fragment of the ports has no part in what is run: [start] and
    [send_command] behave the same whatever the instance holds as its
    ports fragment. *)
Theorem ports_fragment_unused (w : World) (self : DockerInstance)
    (fragment : string) (args : list string) :
  start w (set_ports self fragment) = start w self
  ∧ send_command_line w (set_ports self fragment) args = send_command_line w self args
  ∧ send_command w (set_ports self fragment) args = send_command w self args.
Proof. by repeat split. Qed.

(** ** The status of the forwarded command *)





Lemma exit_code_is_forwarded_status_witness :
  0 ≤ 2 < 256 ∧ exit_code world_build_fails = Some 2.
Proof.
  split; [lia |].
  eapply (exit_code_is_forwarded_status world_build_fails _ 0 2 [probe]);
    [reflexivity | reflexivity | reflexivity | lia].
Defined.

(** X18: when [docker-compose] is found and the compose file of the
    instance counts as true without being a string, the script ends on the
    [TypeError] of [start] with exit code 1, and the command is not
    forwarded. *)
Theorem start_error_forwards_nothing (w : World) (di : DockerInstance) :
  from_config w = Ok di →
  returncode (shell w [] probe) = 0 →
  truthy (docker_compose_file di) = true →
  isinstance_str (docker_compose_file di) = false →
  main w [] = (Raise TypeError, [probe]) ∧ exit_code w = Some 1.
Proof.
  intros Hconfig Hprobe Htrue Hbad.
  assert (main w [] = (Raise TypeError, [probe])) as Hmain.
  { unfold main, lift, mbind, Run_bind. rewrite Hconfig.
    unfold start, mbind, Run_bind.
    rewrite _docker_compose_exists_spawns, Hprobe. cbn [Z.eqb negb].
    rewrite _start_compose_services_type_error by auto. done. }
  split; [done |]. unfold exit_code. by rewrite Hmain.
Qed.

Lemma start_error_forwards_nothing_witness :
  returncode (shell world_list_compose [] probe) = 0
  ∧ main world_list_compose [] = (Raise TypeError, [probe])
  ∧ exit_code world_list_compose = Some 1.
Proof.
  split; [reflexivity |].
  eapply (start_error_forwards_nothing world_list_compose);
    [vm_compute; reflexivity | reflexivity | reflexivity | reflexivity].
Defined.

(** ** The workspace lookup from any start *)

Lemma find_loop_result (w : World) (fuel : nat) (start found : string) :
  find_loop fuel w start = Ok found →
  (found = "" ∨ found = "/"
   ∨ path_exists w (path_join found BAZEL_WORKSPACE_FILE) = true)
  ∧ ∃ k, (k < fuel)%nat ∧ found = Nat.iter k dirname start.
Proof.
  revert start. induction fuel as [|fuel IH]; intros start; [done |].
  cbn [find_loop].
  destruct (start =? "")%string eqn:Hempty; cbn [negb andb].
  { intros [= <-]. apply String.eqb_eq in Hempty.
    split; [by left | exists 0%nat; split; [lia | done]]. }
  destruct (start =? "/")%string eqn:Hroot; cbn [negb andb].
  { intros [= <-]. apply String.eqb_eq in Hroot.
    split; [by right; left | exists 0%nat; split; [lia | done]]. }
  destruct (path_exists w (path_join start BAZEL_WORKSPACE_FILE)) eqn:Hmarker;
    cbn [negb].
  { intros [= <-]. split; [by right; right | exists 0%nat; split; [lia | done]]. }
  intros [Hfound (k & Hk & ->)]%IH. split; [done |].
  exists (S k). split; [lia | by rewrite Nat.iter_succ_r].
Qed.

(** X19: from any start, canonical or not, what the lookup returns is the
    empty string, the root path, or a directory where the marker exists,
    and it is the start with [os.path.dirname] applied some number of
    times, at most the length of the start. *)
Theorem lookup_result_any_start (w : World) (found : string) :
  _find_workspace_directory w = Ok found →
  (found = "" ∨ found = "/"
   ∨ path_exists w (path_join found BAZEL_WORKSPACE_FILE) = true)
  ∧ ∃ k, (k ≤ String.length (cwd w))%nat ∧ found = Nat.iter k dirname (cwd w).
Proof.
  intros [Hfound (k & Hk & ->)]%find_loop_result.
  split; [done |]. exists k. split; [lia | done].
Qed.

Lemma lookup_result_any_start_witness :
  _find_workspace_directory world_with_overrides = Ok "/home/u/proj"
  ∧ path_exists world_with_overrides
      (path_join "/home/u/proj" BAZEL_WORKSPACE_FILE) = true
  ∧ ∃ k, (k ≤ String.length (cwd world_with_overrides))%nat
         ∧ "/home/u/proj" = Nat.iter k dirname (cwd world_with_overrides).
Proof.
  split; [reflexivity |]. split; [reflexivity |].
  apply (lookup_result_any_start world_with_overrides "/home/u/proj").
  reflexivity.
Defined.

Lemma _find_workspace_directory_diverges_witness :
  _find_workspace_directory (with_cwd world_without_compose "//") = Diverge
  ∧ ∀ fuel, find_loop fuel (with_cwd world_without_compose "//") "//" = Diverge.
Proof.
  split; [reflexivity |].
  apply (_find_workspace_directory_diverges (with_cwd world_without_compose "//")).
  reflexivity.
Defined.

Lemma nearest_take (w : World) (names : list string) :
  ∃ k, (k ≤ length names)%nat
       ∧ rev (nearest w (rev names)) = take k names
       ∧ (k = 0%nat
          ∨ path_exists w (path_join (abs_path (take k names)) BAZEL_WORKSPACE_FILE)
            = true)
       ∧ ∀ j, (k < j ≤ length names)%nat →
              path_exists w (path_join (abs_path (take j names)) BAZEL_WORKSPACE_FILE)
              = false.
Proof.
  induction names as [|name names (k & Hk & Hnear & Hmark & Hbelow)] using rev_ind.
  - exists 0%nat. repeat split; [done | by left | simpl; lia].
  - rewrite nearest_snoc, length_app. cbn [length].
    destruct (path_exists w (path_join (abs_path (names ++ [name]))
                BAZEL_WORKSPACE_FILE)) eqn:Hhere.
    + exists (length names + 1)%nat.
      assert (take (length names + 1) (names ++ [name]) = names ++ [name]) as ->
        by (apply take_ge; rewrite length_app; simpl; lia).
      rewrite rev_involutive.
      repeat split; [lia | by right | lia].
    + exists k. rewrite take_app_le by done.
      split; [lia |]. split; [done |]. split; [done |].
      intros j Hj. destruct (decide (j ≤ length names)%nat) as [Hle|Hgt].
      * rewrite take_app_le by done. apply Hbelow. lia.
      * rewrite take_ge by (rewrite length_app; simpl; lia). done.
Qed.

(** X20: from a canonical working directory the lookup returns a directory
    at or above the start; unless that is the root, the marker exists
    there; and the marker exists in no directory between it and the
    start, the start included. *)
Theorem lookup_returns_nearest (w : World) (names : list string) :
  Forall (λ n, valid_name n = true) names → cwd w = abs_path names →
  ∃ k, (k ≤ length names)%nat
       ∧ _find_workspace_directory w = Ok (abs_path (take k names))
       ∧ (k = 0%nat
          ∨ path_exists w (path_join (abs_path (take k names)) BAZEL_WORKSPACE_FILE)
            = true)
       ∧ ∀ j, (k < j ≤ length names)%nat →
              path_exists w (path_join (abs_path (take j names)) BAZEL_WORKSPACE_FILE)
              = false.
Proof.
  intros Hvalid Hcwd. destruct (nearest_take w names) as (k & Hk & Hnear & Hrest).
  exists k. split; [done |]. split; [| done].
  by rewrite (_find_workspace_directory_nearest w names Hvalid Hcwd), Hnear.
Qed.

Lemma lookup_returns_nearest_witness :
  Forall (λ n, valid_name n = true) ["home"; "u"; "proj"; "a"; "b"; "c"]
  ∧ cwd world_with_overrides = abs_path ["home"; "u"; "proj"; "a"; "b"; "c"]
  ∧ ∃ k, (k ≤ 6)%nat
         ∧ _find_workspace_directory world_with_overrides
           = Ok (abs_path (take k ["home"; "u"; "proj"; "a"; "b"; "c"])).
Proof.
  split; [repeat constructor |]. split; [reflexivity |].
  destruct (lookup_returns_nearest world_with_overrides
              ["home"; "u"; "proj"; "a"; "b"; "c"]) as (k & Hk & Hfound & _);
    [repeat constructor | reflexivity |].
  exists k. split; [exact Hk | exact Hfound].
Defined.

(** X21: the lookup is idempotent on canonical paths: started again from
    the directory it has returned, it returns that directory. *)
Theorem lookup_idempotent (w : World) (names : list string) :
  Forall (λ n, valid_name n = true) names → cwd w = abs_path names →
  ∃ found, _find_workspace_directory w = Ok found
           ∧ _find_workspace_directory (with_cwd w found) = Ok found.
Proof.
  intros Hvalid Hcwd.
  destruct (nearest_take w names) as (k & Hk & Hnear & Hmark & _).
  exists (abs_path (take k names)). split.
  - by rewrite (_find_workspace_directory_nearest w names Hvalid Hcwd), Hnear.
  - rewrite (_find_workspace_directory_nearest _ (take k names));
      [| by apply Forall_take | done].
    do 2 f_equal.
    destruct (take k names) as [|name up _] eqn:Htake using rev_ind; [done |].
    rewrite nearest_snoc. cbn [path_exists with_cwd].
    destruct Hmark as [->|Hmark]; [simpl in Htake; by destruct up |].
    by rewrite Hmark, rev_involutive.
Qed.

Lemma lookup_idempotent_witness :
  Forall (λ n, valid_name n = true) ["home"; "u"; "proj"; "a"; "b"; "c"]
  ∧ cwd world_with_overrides = abs_path ["home"; "u"; "proj"; "a"; "b"; "c"]
  ∧ ∃ found, _find_workspace_directory world_with_overrides = Ok found
             ∧ _find_workspace_directory (with_cwd world_with_overrides found)
               = Ok found.
Proof.
  split; [repeat constructor |]. split; [reflexivity |].
  apply (lookup_idempotent world_with_overrides
           ["home"; "u"; "proj"; "a"; "b"; "c"]);
    [repeat constructor | reflexivity].
Defined.
